(** * elBullistatistics: the PDF report composer ([pdf.py])

    A shallow embedding of [pdf.py] and the properties of its layout
    geometry, header/footer drawing and document assembly, followed by
    the helpers of [app.py] that are plain computations on numbers,
    strings and lists (module [App]).

    Conventions of the embedding.

    - Python numbers used as lengths (points, [float]) are exact rationals
      [Q]; equalities between lengths are stated with [==].  Rounding of
      binary floating point is not modelled.
    - A Python exception is a value of [exn]; code that may raise returns
      [result].
    - The file system is seen through what [ImageReader(path).getSize()]
      answers: [files] maps a path to the pixel size of the image stored
      there, or to nothing when the file is absent or not an image.
    - The canvas is the list of drawing calls made on it, in call order.
    - ReportLab itself (units, page sizes, [Frame], [BaseDocTemplate]) is
      not part of the repository.  The fragment of its layout engine that
      [build_pdf] drives is transcribed in module [Platypus] from
      ReportLab's [platypus/frames.py] and [platypus/doctemplate.py]. *)

From Stdlib Require Import ZArith QArith Qminmax List String Ascii Bool Lia Lqa.
From Stdlib Require Import DecimalString Permutation Sorted.
Import ListNotations.

Open Scope Q_scope.

(* ------------------------------------------------------------------ *)
(** ** Exceptions *)

Inductive exn : Type :=
| IOError            (* ImageReader: file missing, unreadable or corrupt *)
| ZeroDivisionError  (* [a / 0] *)
| TypeError          (* arithmetic on [None] *)
| ValueError         (* ReportLab: unknown page template *)
| LayoutError.       (* ReportLab: flowable too large, too many empty pages *)

Inductive result (A : Type) : Type :=
| Ok (a : A)
| Raise (e : exn).

Arguments Ok {A} a.
Arguments Raise {A} e.

Definition bind {A B : Type} (m : result A) (k : A -> result B) : result B :=
  match m with
  | Ok a => k a
  | Raise e => Raise e
  end.

Notation "x <- m ;; k" := (bind m (fun x => k))
  (at level 61, m at next level, right associativity).
Notation "' p <- m ;; k" := (bind m (fun x => let p := x in k))
  (at level 61, p pattern, m at next level, right associativity).

(** [try: body except Exception: pass], for a body whose only effect is
    the drawing calls it returns: a failure leaves nothing drawn. *)
Definition try_pass {A : Type} (body : result (list A)) : list A :=
  match body with
  | Ok l => l
  | Raise _ => []
  end.

(* ------------------------------------------------------------------ *)
(** ** Python arithmetic on lengths *)

(** [a / b] *)
Definition pydiv (a b : Q) : result Q :=
  if Qeq_bool b 0 then Raise ZeroDivisionError else Ok (a / b).

(** [min(a, b)]: the first argument is kept unless the second is
    strictly smaller. *)
Definition pymin (a b : Q) : Q := if Qle_bool a b then a else b.

(** [min(a, b, c)] scans its arguments from the left. *)
Definition pymin3 (a b c : Q) : Q := pymin (pymin a b) c.

(** [max(a, b)]: the first argument is kept unless the second is
    strictly larger. *)
Definition pymax (a b : Q) : Q := if Qle_bool b a then a else b.

(** Truth value of an optional number: [None] and zero are false. *)
Definition truthy (o : option Q) : bool :=
  match o with
  | Some q => negb (Qeq_bool q 0)
  | None => false
  end.

(** The number held by an attribute; arithmetic on [None] raises. *)
Definition num (o : option Q) : result Q :=
  match o with
  | Some q => Ok q
  | None => Raise TypeError
  end.

(** [reportlab.lib.units] *)
Definition inch : Q := 72.
Definition cm : Q := inch / 2.54.
Definition mm : Q := cm * 0.1.

(** [reportlab.lib.pagesizes] *)
Definition A4 : Q * Q := (210 * mm, 297 * mm).
Definition landscape (pagesize : Q * Q) : Q * Q :=
  let '(a, b) := pagesize in
  if Qlt_le_dec a b then (b, a) else (a, b).

(* ------------------------------------------------------------------ *)
(** ** Images on disk *)

Definition files : Type := string -> option (Z * Z).

(** [iw, ih = ImageReader(path).getSize()] *)
Definition ImageReader_getSize (fs : files) (path : string) : result (Q * Q) :=
  match fs path with
  | Some (iw, ih) => Ok (inject_Z iw, inject_Z ih)
  | None => Raise IOError
  end.

(** Every image that can be read has a positive width and height. *)
Definition images_positive (fs : files) : Prop :=
  forall p iw ih, fs p = Some (iw, ih) -> (0 < iw)%Z /\ (0 < ih)%Z.

(* ------------------------------------------------------------------ *)
(** ** Canvas *)

Inductive canvas_op : Type :=
| saveState
| restoreState
| translate (x y : Q)
| setFont (name : string) (size : Q)
| drawImage (path : string) (x y width height : Q)
| drawString (x y : Q) (text : string)
| drawCentredString (x y : Q) (text : string)
| drawRightString (x y : Q) (text : string)
| drawParagraph (text : string).

(* ------------------------------------------------------------------ *)
(** ** class CenteredImage(Flowable) *)

Module CenteredImage.

Record t : Type := mk {
  path : string;
  draw_w : option Q;
  draw_h : option Q;
  scale : option Q;
  fit : bool;
  _dw : option Q;
  _dh : option Q;
  availW : option Q;
  availH : option Q
}.

(** [__init__(self, path, draw_w=None, draw_h=None, scale=None, fit=False)] *)
Definition init (path : string) (draw_w draw_h scale : option Q) (fit : bool) : t :=
  mk path draw_w draw_h scale fit None None None None.

(** [wrap], lines 58-70: the draw size asked for by the sizing hints. *)
Definition hinted_size (self : t) (iw ih : Q) : result (Q * Q) :=
  match scale self with
  | Some s => Ok (iw * s, ih * s)
  | None =>
      if truthy (draw_w self) && truthy (draw_h self) then
        w <- num (draw_w self) ;;
        h <- num (draw_h self) ;;
        rw <- pydiv w iw ;;
        rh <- pydiv h ih ;;
        let r := pymin rw rh in
        Ok (iw * r, ih * r)
      else if truthy (draw_w self) then
        w <- num (draw_w self) ;;
        r <- pydiv w iw ;;
        Ok (iw * r, ih * r)
      else if truthy (draw_h self) then
        h <- num (draw_h self) ;;
        r <- pydiv h ih ;;
        Ok (iw * r, ih * r)
      else Ok (iw, ih)
  end.

(** [wrap], lines 72-74: the optional shrink into the available area. *)
Definition fitted_size (self : t) (availWidth availHeight : Q) (d : Q * Q)
  : result (Q * Q) :=
  let '(dw, dh) := d in
  if fit self then
    fw <- pydiv availWidth dw ;;
    fh <- pydiv availHeight dh ;;
    let rfit := pymin3 fw fh 1 in
    Ok (dw * rfit, dh * rfit)
  else Ok (dw, dh).

(** [wrap(self, availWidth, availHeight)]: the object after the call and
    the size it claims. *)
Definition wrap (fs : files) (self : t) (availWidth availHeight : Q)
  : result (t * (Q * Q)) :=
  '(iw, ih) <- ImageReader_getSize fs (path self) ;;
  d0 <- hinted_size self iw ih ;;
  '(dw, dh) <- fitted_size self availWidth availHeight d0 ;;
  let self' := mk (path self) (draw_w self) (draw_h self) (scale self) (fit self)
                  (Some dw) (Some dh) (Some availWidth) (Some availHeight) in
  Ok (self', (availWidth, availHeight)).

(** [draw(self)]: the drawing calls made on [self.canv]. *)
Definition draw (self : t) : result (list canvas_op) :=
  aW <- num (availW self) ;;
  dw <- num (_dw self) ;;
  aH <- num (availH self) ;;
  dh <- num (_dh self) ;;
  let x := (aW - dw) / 2 - 1 * cm in
  let y := (aH - dh) / 2 in
  Ok [drawImage (path self) x y dw dh].

End CenteredImage.

(* ------------------------------------------------------------------ *)
(** ** Text *)

Open Scope string_scope.
Open Scope list_scope.

(** [str(n)] and [f"{n}"] for an [int]. *)
Definition str (n : Z) : string := NilZero.string_of_int (Z.to_int n).

(** Grouping of a digit sequence read from its last digit: a separator
    goes in after every third digit that is followed by another one.
    [k] counts the digits of the group being filled. *)
Fixpoint group3 (sep : ascii) (digits_rev : list ascii) (k : nat) : list ascii :=
  match digits_rev with
  | [] => []
  | c :: rest =>
      match k with
      | 3%nat => sep :: c :: group3 sep rest 1
      | _ => c :: group3 sep rest (S k)
      end
  end.

(** [f"{n:,}"] for an [int]: the sign, then the decimal digits in groups
    of three counted from the right, separated by commas. *)
Definition format_thousands (n : Z) : string :=
  let digits := list_ascii_of_string (str (Z.abs n)) in
  let grouped := rev (group3 "," (rev digits) 0) in
  string_of_list_ascii ((if (n <? 0)%Z then ["-"%char] else []) ++ grouped).

(** [s.replace(old, new)] for one-character [old] and [new]. *)
Fixpoint replace (old new : ascii) (s : string) : string :=
  match s with
  | EmptyString => EmptyString
  | String c s' => String (if Ascii.eqb c old then new else c) (replace old new s')
  end.

(** Line 138 of [draw_common_elements]: the visitor count as drawn. *)
Definition vis_str (total_visitors : Z) : string :=
  replace "," "." (format_thousands total_visitors).

(** What the font machinery and the paragraph layout of ReportLab answer:
    [canvas.stringWidth(text, fontName, fontSize)] and the height at which
    [Paragraph(text, style)] wraps in a given width. *)
Record text_metrics : Type := {
  stringWidth : string -> string -> Q -> Q;
  paragraph_height : string -> Q -> Q
}.

(* ------------------------------------------------------------------ *)
(** ** Drawing callbacks *)

(** The attributes of the document that the callbacks read. *)
Record doc_t : Type := { pagesize : Q * Q; page : Z }.

(** Line 109 of [draw_cover]: the height at which the cover title is
    drawn. *)
Definition cover_text_y (height text_from_bottom_cm : Q) : Q :=
  pymax (1.0 * cm) (pymin (text_from_bottom_cm * cm) (height - 1.5 * cm)).

(** [draw_cover(canvas, doc, image_path, file_name,
                image_offset_cm=-1.0, text_from_bottom_cm=5.8)] *)
Definition draw_cover (fs : files) (doc : doc_t) (image_path file_name : string)
    (image_offset_cm text_from_bottom_cm : Q) : result (list canvas_op) :=
  let '(width, height) := pagesize doc in
  '(iw, ih) <- ImageReader_getSize fs image_path ;;
  let max_w := width * 1.2 in
  let max_h := height * 0.9 in
  rw <- pydiv max_w iw ;;
  rh <- pydiv max_h ih ;;
  let scale := pymin rw rh in
  let '(dw, dh) := (iw * scale, ih * scale) in
  let image_y := (height - dh) / 2 + (image_offset_cm * cm) in
  let image_x := (width - dw) / 2 in
  let text_y := cover_text_y height text_from_bottom_cm in
  Ok [ saveState;
       drawImage image_path image_x image_y dw dh;
       setFont "Raleway-Bold" 28;
       drawCentredString (width / 2) text_y file_name;
       restoreState ].

(** Lines 126-136: the logo, inside [try: ... except Exception: pass]. *)
Definition draw_logo (fs : files) (width height : Q) : list canvas_op :=
  try_pass (
    '(iw, ih) <- ImageReader_getSize fs "resources/water.png" ;;
    let target_h := 1.2 * cm in
    scale <- pydiv target_h ih ;;
    let '(dw, dh) := (iw * scale, ih * scale) in
    let x := width - 2 * cm - dw in
    let y := height - 1.2 * cm - (dh * 0.5) in
    Ok [drawImage "resources/water.png" x y dw dh]).

(** [draw_common_elements(canvas, doc, file_name, total_visitors, title)].
    Nothing in it can raise past the [try]. *)
Definition draw_common_elements (fs : files) (tm : text_metrics) (doc : doc_t)
    (file_name : string) (total_visitors : Z) (title : string) : list canvas_op :=
  let '(width, height) := pagesize doc in
  let off := stringWidth tm "Fecha:" "Raleway-Bold" 10 + 4 in
  let vis_str := vis_str total_visitors in
  let label := "Visitantes totales:" in
  let lw := stringWidth tm label "Raleway-Bold" 10 in
  let vw := stringWidth tm vis_str "Raleway" 10 in
  let start_x := (width - (lw + vw + 4)) / 2 in
  let shown_page := (page doc - 1)%Z in
  [ saveState;
    setFont "Raleway-Bold" 14;
    drawCentredString (width / 2) (height - 1.2 * cm) title;
    setFont "Raleway-Bold" 10;
    drawString (2 * cm) (height - 1.2 * cm) "Fecha:";
    setFont "Raleway" 10;
    drawString (2 * cm + off) (height - 1.2 * cm) file_name ]
  ++ draw_logo fs width height
  ++ [ setFont "Raleway-Bold" 10;
       drawString start_x (1.2 * cm) label;
       setFont "Raleway" 10;
       drawString (start_x + lw + 4) (1.2 * cm) vis_str;
       drawRightString (width - 2 * cm) (1.2 * cm) (str shown_page);
       restoreState ].

(* ------------------------------------------------------------------ *)
(** ** The layout engine driven by [build_pdf] *)

Module Platypus.

(** The flowables that [build_pdf] puts in a story. *)
Inductive flowable : Type :=
| Paragraph (text : string)
| NextPageTemplate (pt : string)
| PageBreak
| Centered (img : CenteredImage.t).

(** [rl_config._FUZZ] *)
Definition _FUZZ : Q := 0.000001.

(** [flowable.getSpaceBefore()]: 6 points for a paragraph in the
    [BodyText] style, none for a flowable without a style. *)
Definition getSpaceBefore (f : flowable) : Q :=
  match f with
  | Paragraph _ => 6
  | _ => 0
  end.

Definition getSpaceAfter (f : flowable) : Q := 0.

(** [flowable.wrap(availWidth, availHeight)] *)
Definition wrap (fs : files) (tm : text_metrics) (f : flowable)
    (availWidth availHeight : Q) : result (flowable * (Q * Q)) :=
  match f with
  | Centered img =>
      '(img', size) <- CenteredImage.wrap fs img availWidth availHeight ;;
      Ok (Centered img', size)
  | Paragraph text =>
      Ok (f, (availWidth, paragraph_height tm text availWidth))
  | _ => Ok (f, (0, 0))
  end.

(** [flowable.draw()] *)
Definition draw (f : flowable) : result (list canvas_op) :=
  match f with
  | Centered img => CenteredImage.draw img
  | Paragraph text => Ok [drawParagraph text]
  | _ => Ok []
  end.

(** [Frame(x1, y1, width, height, id=...)], with the default padding
    of 6 points on every side. *)
Module Frame.

Record t : Type := mk {
  id : string;
  _x1 : Q;
  _y1 : Q;
  _width : Q;
  _height : Q;
  _x : Q;
  _y : Q;
  _atTop : bool;
  _prevASpace : Q
}.

Definition padding : Q := 6.
Definition _y2 (self : t) : Q := _y1 self + _height self.
Definition _y1p (self : t) : Q := _y1 self + padding.
Definition _aW (self : t) : Q := _width self - padding - padding.
Definition _aH (self : t) : Q := _y2 self - _y1p self - padding.

Definition _reset (self : t) : t :=
  mk (id self) (_x1 self) (_y1 self) (_width self) (_height self)
     (_x1 self + padding) (_y2 self - padding) true 0.

Definition init (x1 y1 width height : Q) (id : string) : t :=
  _reset (mk id x1 y1 width height 0 0 true 0).

(** [Frame._add(flowable, canv, trySplit=1)]: [None] when the flowable
    does not fit in what is left of the frame, else the frame after
    the flowable was placed and the drawing calls of
    [flowable.drawOn]. *)
Definition _add (fs : files) (tm : text_metrics) (self : t) (f : flowable)
  : result (option (t * list canvas_op)) :=
  let y := _y self in
  let p := _y1p self in
  let aW := _aW self in
  let s := if _atTop self then 0
           else pymax (getSpaceBefore f - _prevASpace self) 0 in
  let h := y - p - s in
  if negb (Qle_bool h 0) then
    '(f', (w, h)) <- wrap fs tm f aW h ;;
    let h := h + s in
    let y := y - h in
    if negb (Qle_bool (p - _FUZZ) y) then Ok None
    else
      ops <- draw f' ;;
      let s := getSpaceAfter f' in
      let y' := y - s in
      let atTop := if Qeq_bool y' (_y self) then _atTop self else false in
      Ok (Some (mk (id self) (_x1 self) (_y1 self) (_width self) (_height self)
                   (_x self) y' atTop s,
                [saveState; translate (_x self) y] ++ ops ++ [restoreState]))
  else Ok None.

End Frame.

(** [PageTemplate(id=..., frames=[frame], onPage=...)] with its single
    frame. *)
Record PageTemplate : Type := {
  pt_id : string;
  pt_frame : Frame.t;
  onPage : doc_t -> result (list canvas_op)
}.

Inductive action : Type := PageBegin.

(** The state of a [BaseDocTemplate] during [build], together with its
    canvas: the pages shown so far and the drawing calls of the page
    being composed. *)
Record t : Type := mk {
  doc_pagesize : Q * Q;
  doc_page : Z;
  pageTemplate : nat;
  _nextPageTemplateIndex : option nat;
  frame : Frame.t;
  _hanging : list action;
  _curPageFlowableCount : nat;
  _emptyPages : nat;
  canv_pages : list (list canvas_op);
  canv_code : list canvas_op
}.

Definition _emptyPagesAllowed : nat := 10.

Section Build.

Variable fs : files.
Variable tm : text_metrics.
Variable pageTemplates : list PageTemplate.

Definition current_template (d : t) : result PageTemplate :=
  match nth_error pageTemplates (pageTemplate d) with
  | Some pt => Ok pt
  | None => Raise ValueError
  end.

(** [handle_documentBegin] *)
Definition handle_documentBegin (pagesize : Q * Q) (first : Frame.t) : t :=
  mk pagesize 0 0 None first [PageBegin] 0 0 [] [].

(** [handle_pageBegin] *)
Definition handle_pageBegin (d : t) : result t :=
  let page := (doc_page d + 1)%Z in
  pt <- current_template d ;;
  ops <- onPage pt {| pagesize := doc_pagesize d; page := page |} ;;
  Ok (mk (doc_pagesize d) page (pageTemplate d) (_nextPageTemplateIndex d)
         (Frame._reset (pt_frame pt)) (_hanging d) 0 (_emptyPages d)
         (canv_pages d) (canv_code d ++ ops)).

(** [handle_pageEnd], ending with [canv.showPage()] and a hanging
    [PageBegin]. *)
Definition handle_pageEnd (d : t) : result t :=
  let emptyPages :=
    match _curPageFlowableCount d with
    | O => S (_emptyPages d)
    | _ => O
    end in
  if (_emptyPagesAllowed <=? emptyPages)%nat then Raise LayoutError
  else
    let tpl := match _nextPageTemplateIndex d with
               | Some i => i
               | None => pageTemplate d
               end in
    Ok (mk (doc_pagesize d) (doc_page d) tpl None (frame d)
           (_hanging d ++ [PageBegin]) (_curPageFlowableCount d) emptyPages
           (canv_pages d ++ [canv_code d]) []).

(** [handle_frameEnd] for a template of one frame, and
    [handle_pageBreak] with [_pageBreakQuick] set. *)
Definition handle_frameEnd (d : t) : result t := handle_pageEnd d.
Definition handle_pageBreak (d : t) : result t := handle_pageEnd d.

Fixpoint find_template (pt : string) (l : list PageTemplate) (i : nat)
  : option nat :=
  match l with
  | [] => None
  | t0 :: l' => if String.eqb (pt_id t0) pt then Some i
                else find_template pt l' (S i)
  end.

(** [handle_nextPageTemplate(pt)] for a template name. *)
Definition handle_nextPageTemplate (pt : string) (d : t) : result t :=
  match find_template pt pageTemplates 0 with
  | Some i =>
      Ok (mk (doc_pagesize d) (doc_page d) (pageTemplate d) (Some i) (frame d)
             (_hanging d) (_curPageFlowableCount d) (_emptyPages d)
             (canv_pages d) (canv_code d))
  | None => Raise ValueError
  end.

(** [clean_hanging] *)
Fixpoint run_hanging (hs : list action) (d : t) : result t :=
  match hs with
  | [] => Ok d
  | PageBegin :: hs' => d' <- handle_pageBegin d ;; run_hanging hs' d'
  end.

Definition clean_hanging (d : t) : result t :=
  run_hanging (_hanging d)
    (mk (doc_pagesize d) (doc_page d) (pageTemplate d) (_nextPageTemplateIndex d)
        (frame d) [] (_curPageFlowableCount d) (_emptyPages d)
        (canv_pages d) (canv_code d)).

(** [handle_flowable] on the flowable at the head of the story.  The
    boolean of the answer tells that the flowable was put back at the
    head of the story, marked [_postponed], for the next frame. *)
Definition handle_flowable (postponed : bool) (f : flowable) (d : t)
  : result (t * bool) :=
  match f with
  | PageBreak => d' <- handle_pageBreak d ;; Ok (d', false)
  | NextPageTemplate pt => d' <- handle_nextPageTemplate pt d ;; Ok (d', false)
  | _ =>
      r <- Frame._add fs tm (frame d) f ;;
      match r with
      | Some (fr, ops) =>
          Ok (mk (doc_pagesize d) (doc_page d) (pageTemplate d)
                 (_nextPageTemplateIndex d) fr (_hanging d)
                 (S (_curPageFlowableCount d)) (_emptyPages d)
                 (canv_pages d) (canv_code d ++ ops), false)
      | None =>
          if postponed then Raise LayoutError
          else d' <- handle_frameEnd d ;; Ok (d', true)
      end
  end.

(** The body of the [while len(flowables)] loop of [build], for the
    flowable at the head of the story: one turn, and a second one when
    the first turn put the flowable back. *)
Definition turn (f : flowable) (d : t) : result t :=
  d1 <- clean_hanging d ;;
  '(d2, again) <- handle_flowable false f d1 ;;
  if again then
    d3 <- clean_hanging d2 ;;
    '(d4, _) <- handle_flowable true f d3 ;;
    Ok d4
  else Ok d2.

Fixpoint turns (story : list flowable) (d : t) : result t :=
  match story with
  | [] => Ok d
  | f :: story' => d' <- turn f d ;; turns story' d'
  end.

(** [_endBuild], ending with [canv.save()]: the pages of the file
    written. *)
Definition _endBuild (d : t) : result (list (list canvas_op)) :=
  d' <- match rev (_hanging d) with
        | PageBegin :: hs =>
            clean_hanging
              (mk (doc_pagesize d) (doc_page d) (pageTemplate d)
                  (_nextPageTemplateIndex d) (frame d) (rev hs)
                  (_curPageFlowableCount d) (_emptyPages d)
                  (canv_pages d) (canv_code d))
        | [] => d1 <- clean_hanging d ;; handle_pageBreak d1
        end ;;
  Ok (match canv_code d' with
      | [] => canv_pages d'
      | code => canv_pages d' ++ [code]
      end).

(** [BaseDocTemplate(..., pagesize=..., pageTemplates=...).build(story)] *)
Definition build (pagesize : Q * Q) (story : list flowable)
  : result (list (list canvas_op)) :=
  match pageTemplates with
  | [] => Raise ValueError
  | first :: _ =>
      d <- turns story (handle_documentBegin pagesize (pt_frame first)) ;;
      _endBuild d
  end.

End Build.

End Platypus.

(* ------------------------------------------------------------------ *)
(** ** Document assembly *)

Import Platypus.

(** Lines 199-208 of [build_pdf]: the story. *)
Definition build_story (page_images : option (list string)) : list flowable :=
  let story := [] in
  let story := story ++ [Paragraph " "] in
  let story := story ++ [NextPageTemplate "BODY"] in
  let story := story ++ [PageBreak] in
  match page_images with
  | Some ((_ :: _) as page_images) =>
      let len := Z.of_nat (List.length page_images) in
      fold_left
        (fun story ip =>
           let '(i, p) := ip in
           let story :=
             story ++ [Centered (CenteredImage.init p (Some (26 * cm)) None None false)] in
           if (Z.of_nat i <? len - 1)%Z then story ++ [PageBreak] else story)
        (combine (seq 0 (List.length page_images)) page_images)
        story
  | _ => story
  end.

(** Lines 176-190 of [build_pdf]: the two frames and the two page
    templates. *)
Definition frame_cover : Frame.t :=
  Frame.init (0 * cm) (0 * cm) (1000 * cm) (1000 * cm) "COVER".

Definition frame_body : Frame.t :=
  Frame.init (2 * cm) (2.5 * cm) (27.7 * cm) (16 * cm) "BODY".

Definition cover_tpl (fs : files) (file_name : string) : PageTemplate :=
  {| pt_id := "COVER"; pt_frame := frame_cover;
     onPage := fun d => draw_cover fs d "resources/cover.jpg" file_name (-1.0) 5.8 |}.

Definition body_tpl (fs : files) (tm : text_metrics) (file_name : string)
    (total_visitors : Z) : PageTemplate :=
  {| pt_id := "BODY"; pt_frame := frame_body;
     onPage := fun d =>
       Ok (draw_common_elements fs tm d file_name total_visitors
             "Estadísticas elBulli1846") |}.

(** [build_pdf(output_path, titulo="Informe", file_name="Informe",
               total_visitors=0, page_images=None)]: the pages of the
    document written to [output_path], or the exception raised. *)
Definition build_pdf (fs : files) (tm : text_metrics) (output_path titulo file_name : string)
    (total_visitors : Z) (page_images : option (list string))
  : result (list (list canvas_op)) :=
  let story := build_story page_images in
  build fs tm [cover_tpl fs file_name; body_tpl fs tm file_name total_visitors]
    (landscape A4) story.

(* ------------------------------------------------------------------ *)
(** ** The pages of a report *)

(** The image flowable that [build_pdf] makes for a path (line 206). *)
Definition page_image (p : string) : CenteredImage.t :=
  CenteredImage.init p (Some (26 * cm)) None None false.

(** The story after the cover: one image per path, with a page break
    between two images. *)
Fixpoint body_story (page_images : list string) : list flowable :=
  match page_images with
  | [] => []
  | p :: rest =>
      Centered (page_image p) ::
      match rest with
      | [] => []
      | _ :: _ => PageBreak :: body_story rest
      end
  end.

(** The drawing calls of the blank paragraph at the top of the cover
    frame. *)
Definition cover_paragraph_ops (tm : text_metrics) : list canvas_op :=
  [ saveState;
    translate (Frame._x frame_cover)
      (Frame._y frame_cover
       - (paragraph_height tm " " (Frame._aW frame_cover) + 0));
    drawParagraph " ";
    restoreState ].

(** The drawing calls of the cover page: the cover callback, then the
    blank paragraph. *)
Definition cover_page (fs : files) (tm : text_metrics) (file_name : string)
  : list canvas_op :=
  match draw_cover fs {| pagesize := landscape A4; page := 1 |}
          "resources/cover.jpg" file_name (-1.0) 5.8 with
  | Ok ops => ops ++ cover_paragraph_ops tm
  | Raise _ => []
  end.

(** The test of [Frame._add] on the blank paragraph at the top of the
    cover frame. *)
Definition paragraph_fits (tm : text_metrics) : bool :=
  Qle_bool (Frame._y1p frame_cover - _FUZZ)
    (Frame._y frame_cover
     - (paragraph_height tm " " (Frame._aW frame_cover) + 0)).

(** What [wrap] meets when it reads a page image: a file that cannot be
    read, or an image without width, by which line 64 divides. *)
Definition page_image_check (fs : files) (p : string) : result unit :=
  match fs p with
  | None => Raise IOError
  | Some (iw, _) =>
      if Qeq_bool (inject_Z iw) 0 then Raise ZeroDivisionError else Ok tt
  end.

Fixpoint page_images_check (fs : files) (page_images : list string) : result unit :=
  match page_images with
  | [] => Ok tt
  | p :: rest => _ <- page_image_check fs p ;; page_images_check fs rest
  end.

(** The drawing calls of an image of [iw] x [ih] pixels read from [p] and
    placed by the body frame. *)
Definition body_image_ops (p : string) (iw ih : Z) : list canvas_op :=
  let aW := Frame._aW frame_body in
  let aH := Frame._y frame_body - Frame._y1p frame_body - 0 in
  let r := 26 * cm / inject_Z iw in
  let dw := inject_Z iw * r in
  let dh := inject_Z ih * r in
  [ saveState;
    translate (Frame._x frame_body) (Frame._y frame_body - (aH + 0));
    drawImage p ((aW - dw) / 2 - 1 * cm) ((aH - dh) / 2) dw dh;
    restoreState ].

(** The drawing calls of the body page numbered [k] by the engine, for
    the image at [p]: header and footer, then the image. *)
Definition body_page (fs : files) (tm : text_metrics) (file_name : string)
    (total_visitors : Z) (k : Z) (p : string) : list canvas_op :=
  draw_common_elements fs tm {| pagesize := landscape A4; page := k |}
    file_name total_visitors "Estadísticas elBulli1846"
  ++ match fs p with
     | Some (iw, ih) => body_image_ops p iw ih
     | None => []
     end.

Fixpoint body_pages (fs : files) (tm : text_metrics) (file_name : string)
    (total_visitors : Z) (k : Z) (page_images : list string)
  : list (list canvas_op) :=
  match page_images with
  | [] => []
  | p :: rest =>
      body_page fs tm file_name total_visitors k p
      :: body_pages fs tm file_name total_visitors (k + 1) rest
  end.

(** The outcome of a build in closed form: the cover callback, the
    blank paragraph, the page images in order, and then the pages. *)
Definition build_result (fs : files) (tm : text_metrics) (file_name : string)
    (total_visitors : Z) (page_images : list string)
  : result (list (list canvas_op)) :=
  cover <- draw_cover fs {| pagesize := landscape A4; page := 1 |}
             "resources/cover.jpg" file_name (-1.0) 5.8 ;;
  if paragraph_fits tm then
    _ <- page_images_check fs page_images ;;
    Ok ((cover ++ cover_paragraph_ops tm)
        :: body_pages fs tm file_name total_visitors 2 page_images)
  else Raise LayoutError.

Definition readable (fs : files) (p : string) : bool :=
  match fs p with
  | Some _ => true
  | None => false
  end.

(** The assets and the layout with which a build can succeed: the cover
    image is there, images have a positive size, and the blank paragraph
    is not higher than the cover frame. *)
Definition assets_valid (fs : files) (tm : text_metrics) : Prop :=
  images_positive fs /\
  fs "resources/cover.jpg" <> None /\
  paragraph_height tm " " (Frame._aW frame_cover) <= Frame._aH frame_cover.

(** A page ended: the engine is about to begin page [k + 1] with the
    body template, and the pages [P] are in the file. *)
Definition page_ended (d : Platypus.t) (k : Z) (P : list (list canvas_op)) : Prop :=
  doc_pagesize d = landscape A4 /\ doc_page d = k /\ pageTemplate d = 1%nat /\
  _nextPageTemplateIndex d = None /\ _hanging d = [PageBegin] /\
  _emptyPages d = 0%nat /\ canv_pages d = P /\ canv_code d = [].

(** A body page is being composed: page [k] holds the drawing calls
    [code] of at least one flowable. *)
Definition page_open (d : Platypus.t) (k : Z) (P : list (list canvas_op))
    (code : list canvas_op) : Prop :=
  doc_pagesize d = landscape A4 /\ doc_page d = k /\ pageTemplate d = 1%nat /\
  _nextPageTemplateIndex d = None /\ _hanging d = [] /\
  _emptyPages d = 0%nat /\ _curPageFlowableCount d <> 0%nat /\
  canv_pages d = P /\ canv_code d = code.

(** The drawing call of the logo. *)
Definition is_logo (o : canvas_op) : bool :=
  match o with
  | drawImage p _ _ _ _ => String.eqb p "resources/water.png"
  | _ => false
  end.

(** A page less the drawing call of the logo. *)
Definition without_logo (ops : list canvas_op) : list canvas_op :=
  filter (fun o => negb (is_logo o)) ops.

(** The first three flowables of every story (lines 200-202). *)
Definition story_prefix : list flowable :=
  [Paragraph " "; NextPageTemplate "BODY"; PageBreak].

(** The paths that [if page_images:] lets through. *)
Definition images_of (page_images : option (list string)) : list string :=
  match page_images with
  | Some l => l
  | None => []
  end.

(* ------------------------------------------------------------------ *)
(** ** The sizing rule in the words of the specification *)

(** The draw size for hints that are given ([Some]) or absent ([None]):
    the scale factor first, else both targets, else the single target,
    else the intrinsic size. *)
Definition precedence_size (iw ih : Q) (scale target_w target_h : option Q)
  : Q * Q :=
  match scale, target_w, target_h with
  | Some s, _, _ => (iw * s, ih * s)
  | None, Some w, Some h => let r := Qmin (w / iw) (h / ih) in (iw * r, ih * r)
  | None, Some w, None => let r := w / iw in (iw * r, ih * r)
  | None, None, Some h => let r := h / ih in (iw * r, ih * r)
  | None, None, None => (iw, ih)
  end.

(** A target width or height as [wrap] tests it: a target of zero counts
    as absent. *)
Definition given (o : option Q) : option Q := if truthy o then o else None.

Definition is_digit (c : ascii) : Prop :=
  In c (list_ascii_of_string "0123456789").

Definition size_eq (a b : Q * Q) : Prop := fst a == fst b /\ snd a == snd b.


(* ------------------------------------------------------------------ *)
(** ** Sample inputs *)

(** A disk with the cover, the logo and two page images. *)
Definition sample_files : files := fun p =>
  if String.eqb p "resources/cover.jpg" then Some (1200, 800)%Z
  else if String.eqb p "resources/water.png" then Some (300, 100)%Z
  else if String.eqb p "a.png" then Some (800, 600)%Z
  else if String.eqb p "b.png" then Some (1000, 300)%Z
  else None.

(** The same disk without the logo. *)
Definition sample_files_no_logo : files := fun p =>
  if String.eqb p "resources/water.png" then None else sample_files p.

(** A font in which every character is half as wide as it is high, and
    paragraphs of one line of 12 points. *)
Definition sample_metrics : text_metrics :=
  {| stringWidth := fun s _ size => inject_Z (Z.of_nat (String.length s)) * size * 0.5;
     paragraph_height := fun _ _ => 12 |}.

(* ------------------------------------------------------------------ *)
(** ** The rest of [pdf.py] *)





(** The paths of the image flowables of a story, in story order, and the
    number of its page breaks. *)
Fixpoint story_images (story : list flowable) : list string :=
  match story with
  | [] => []
  | Centered img :: rest => CenteredImage.path img :: story_images rest
  | _ :: rest => story_images rest
  end.

Fixpoint page_breaks (story : list flowable) : nat :=
  match story with
  | [] => 0
  | PageBreak :: rest => S (page_breaks rest)
  | _ :: rest => page_breaks rest
  end.

(* ------------------------------------------------------------------ *)
(** ** [app.py]: the helpers of the report *)

Module App.

(** A number of a data frame cell: an integer, or [NaN]. *)
Definition cell : Type := option Z.

(** Comparisons with a cell; every comparison with [NaN] is false. *)
Definition cell_eq (c : cell) (k : Z) : bool :=
  match c with
  | Some z => (z =? k)%Z
  | None => false
  end.

Definition cell_between (lo : Z) (c : cell) (hi : Z) : bool :=
  match c with
  | Some z => (lo <=? z)%Z && (z <=? hi)%Z
  | None => false
  end.

Definition cell_gt (c : cell) (k : Z) : bool :=
  match c with
  | Some z => (k <? z)%Z
  | None => false
  end.

(** [classifyDays(days)] (lines 479-499) *)
Definition classifyDays (days : cell) : string :=
  if cell_eq days 0 then "0 días"
  else if cell_eq days 1 then "1 día"
  else if cell_between 2 days 5 then "2-5 días"
  else if cell_between 6 days 10 then "6-10 días"
  else if cell_between 11 days 20 then "11-20 días"
  else if cell_between 21 days 30 then "21-30 días"
  else if cell_between 31 days 60 then "31-60 días"
  else if cell_between 61 days 90 then "61-90 días"
  else if cell_gt days 90 then "+90 días"
  else "Error de antelación".

(** [advanceOrder] (line 504) *)
Definition advanceOrder : list string :=
  [ "0 días"; "1 día"; "2-5 días"; "6-10 días"; "11-20 días"; "21-30 días";
    "31-60 días"; "61-90 días"; "+90 días" ].

(** [l.index(x)], nothing standing for [ValueError]. *)
Fixpoint index (x : string) (l : list string) : option nat :=
  match l with
  | [] => None
  | y :: rest =>
      if String.eqb y x then Some 0%nat
      else match index x rest with
           | Some i => Some (S i)
           | None => None
           end
  end.

(** [s.replace(",", "X").replace(".", ",").replace("X", ".")], the tail
    of every euro format (lines 153, 190, 750, 764, 804, 818). *)
Definition swap_separators (s : string) : string :=
  replace "X" "." (replace "." "," (replace "," "X" s)).

(** One character with comma and dot exchanged. *)
Definition swap_char (c : ascii) : ascii :=
  if Ascii.eqb c "," then "."%char
  else if Ascii.eqb c "." then ","%char
  else c.

(** [f"{total:,.2f} €".replace(...)...] for an [int] total (lines
    749-750 and 803-804): the conversion of an [int] to [float] keeps its
    value, so the two decimals are zeros. *)
Definition total_fmt (total : Z) : string :=
  swap_separators (String.append (format_thousands total) ".00 €").




(** [lowerOrder] (line 427) *)
Definition lowerOrder : list string :=
  [ "lunes"; "martes"; "miércoles"; "jueves"; "viernes"; "sábado"; "domingo" ].

Section Columns.

(** [str.lower] *)
Variable lower : string -> string.

(** Lines 428-429: the weekday columns of the pivot table, in the order
    of the week.
    [cols_lower = [str(c).lower() for c in columns]]
    [cols_reorden = [columns[cols_lower.index(d)]
                     for d in lowerOrder if d in cols_lower]] *)
Definition cols_reorden (columns : list string) : list string :=
  let cols_lower := map lower columns in
  flat_map
    (fun d =>
       if existsb (String.eqb d) cols_lower then
         match index d cols_lower with
         | Some i =>
             match nth_error columns i with
             | Some c => [c]
             | None => []
             end
         | None => []
         end
       else [])
    lowerOrder.

End Columns.

(** [series.unique()]: the values in the order of their first
    appearance; [seen] holds the values met so far. *)
Fixpoint unique_from (seen l : list string) : list string :=
  match l with
  | [] => []
  | x :: rest =>
      if existsb (String.eqb x) seen then unique_from seen rest
      else x :: unique_from (x :: seen) rest
  end.

Definition unique (l : list string) : list string := unique_from [] l.

(** [sorted(l)] for strings, which Python compares by code point. *)
Fixpoint insert_sorted (x : string) (l : list string) : list string :=
  match l with
  | [] => [x]
  | y :: rest => if String.leb x y then x :: l else y :: insert_sorted x rest
  end.

Definition sorted (l : list string) : list string := fold_right insert_sorted [] l.

(** [countriesOrder] (line 549) *)
Definition countriesOrder : list string := ["Roses"; "Catalunya"; "España"].

(** Lines 550-551:
    [otherCountries = sorted([c for c in labels.unique()
                              if c not in countriesOrder])]
    [finalCountriesOrder = countriesOrder + otherCountries] *)
Definition finalCountriesOrder (labels : list string) : list string :=
  let otherCountries :=
    sorted (filter (fun c => negb (existsb (String.eqb c) countriesOrder))
              (unique labels)) in
  countriesOrder ++ otherCountries.


End App.

(** What the three replacements do to one character. *)
Definition swap_step (c : ascii) : ascii :=
  let c1 := if Ascii.eqb c "," then "X"%char else c in
  let c2 := if Ascii.eqb c1 "." then ","%char else c1 in
  if Ascii.eqb c2 "X" then "."%char else c2.

(** A [str.lower] for the column names of the samples. *)
Definition sample_lower (s : string) : string :=
  if String.eqb s "Lunes" then "lunes"
  else if String.eqb s "LUNES" then "lunes"
  else if String.eqb s "Viernes" then "viernes"
  else if String.eqb s "Domingo" then "domingo"
  else s.

(** A list of strings in ascending order. *)
Definition ascending (l : list string) : Prop :=
  Sorted (fun a b => String.leb a b = true) l.

(* ================================================================== *)
(** * Properties *)

(* ------------------------------------------------------------------ *)
(** ** The model at work *)

Example story_of_two_images :
  build_story (Some ["a.png"; "b.png"]) =
  [ Paragraph " "; NextPageTemplate "BODY"; PageBreak;
    Centered (page_image "a.png"); PageBreak; Centered (page_image "b.png") ].
Proof. reflexivity. Qed.

Example story_without_images :
  build_story None = story_prefix /\ build_story (Some []) = story_prefix.
Proof. split; reflexivity. Qed.

Example visitors_samples :
  vis_str 0 = "0" /\ vis_str 999 = "999" /\ vis_str 1000 = "1.000" /\
  vis_str 45012 = "45.012" /\ format_thousands 1234567 = "1,234,567".
Proof. repeat split; reflexivity. Qed.

Example wrap_of_a_page_image :
  exists img' dw dh,
    CenteredImage.wrap sample_files (page_image "a.png") 700 400
    = Ok (img', (700, 400)) /\
    CenteredImage._dw img' = Some dw /\ CenteredImage._dh img' = Some dh /\
    dw == 26 * cm /\ dh == 19.5 * cm.
Proof.
  eexists. eexists. eexists. split; [vm_compute; reflexivity|].
  repeat split; reflexivity.
Qed.

Example draw_before_wrap :
  CenteredImage.draw (page_image "a.png") = Raise TypeError.
Proof. reflexivity. Qed.

Example report_of_two_images :
  exists pages,
    build_pdf sample_files sample_metrics "out.pdf" "Informe" "Julio" 45012
      (Some ["a.png"; "b.png"]) = Ok pages /\
    List.length pages = 3%nat.
Proof. eexists. split; [vm_compute; reflexivity|reflexivity]. Qed.

Example report_with_a_missing_image :
  build_pdf sample_files sample_metrics "out.pdf" "Informe" "Julio" 45012
    (Some ["a.png"; "c.png"]) = Raise IOError.
Proof. vm_compute. reflexivity. Qed.

Example report_without_cover_image :
  build_pdf (fun _ => None) sample_metrics "out.pdf" "Informe" "Julio" 45012 None
  = Raise IOError.
Proof. vm_compute. reflexivity. Qed.

(* ------------------------------------------------------------------ *)
(** ** Arithmetic helpers *)

Lemma pydiv_nonzero (a b : Q) : ~ b == 0 -> pydiv a b = Ok (a / b).
Proof.
  intros Hb. unfold pydiv.
  destruct (Qeq_bool b 0) eqn:E; [|reflexivity].
  apply Qeq_bool_eq in E. contradiction.
Qed.

Lemma pymin_cases (a b : Q) :
  (a <= b /\ pymin a b = a) \/ (b < a /\ pymin a b = b).
Proof.
  unfold pymin. destruct (Qle_bool a b) eqn:E.
  - left. split; [now apply Qle_bool_iff|reflexivity].
  - right. split; [|reflexivity].
    apply Qnot_le_lt. intros H. apply Qle_bool_iff in H. congruence.
Qed.

Lemma pymax_cases (a b : Q) :
  (b <= a /\ pymax a b = a) \/ (a < b /\ pymax a b = b).
Proof.
  unfold pymax. destruct (Qle_bool b a) eqn:E.
  - left. split; [now apply Qle_bool_iff|reflexivity].
  - right. split; [|reflexivity].
    apply Qnot_le_lt. intros H. apply Qle_bool_iff in H. congruence.
Qed.

Lemma pymin_Qmin (a b : Q) : pymin a b == Qmin a b.
Proof.
  destruct (pymin_cases a b) as [[H E]|[H E]]; rewrite E.
  - symmetry. now apply Q.min_l.
  - symmetry. apply Q.min_r. now apply Qlt_le_weak.
Qed.





Lemma inject_Z_pos (z : Z) : (0 < z)%Z -> 0 < inject_Z z.
Proof. intros H. unfold Qlt, inject_Z. simpl. lia. Qed.



(* ------------------------------------------------------------------ *)
(** ** [CenteredImage.wrap]: the sizing hints *)

Lemma size_eq_refl (a : Q * Q) : size_eq a a.
Proof. split; reflexivity. Qed.

Lemma hinted_size_precedence (self : CenteredImage.t) (iw ih : Q) :
  0 < iw -> 0 < ih ->
  exists bw bh,
    CenteredImage.hinted_size self iw ih = Ok (bw, bh) /\
    size_eq (bw, bh)
      (precedence_size iw ih (CenteredImage.scale self)
         (given (CenteredImage.draw_w self)) (given (CenteredImage.draw_h self))).
Proof.
  intros Hw Hh.
  assert (Hw0 : ~ iw == 0) by lra.
  assert (Hh0 : ~ ih == 0) by lra.
  unfold CenteredImage.hinted_size, precedence_size, given.
  destruct (CenteredImage.scale self) as [s|].
  { exists (iw * s), (ih * s). split; [reflexivity|apply size_eq_refl]. }
  destruct (CenteredImage.draw_w self) as [w|], (CenteredImage.draw_h self) as [h|];
    try destruct (truthy (Some w)) eqn:Tw; try destruct (truthy (Some h)) eqn:Th;
    cbn [andb truthy num bind];
    rewrite ?(pydiv_nonzero _ _ Hw0), ?(pydiv_nonzero _ _ Hh0); cbn [bind];
    eexists; eexists; (split; [reflexivity|]);
    try apply size_eq_refl.
  split; cbn [fst snd]; rewrite pymin_Qmin; reflexivity.
Qed.

Lemma getSize_readable (fs : files) (p : string) (iw ih : Z) :
  fs p = Some (iw, ih) ->
  ImageReader_getSize fs p = Ok (inject_Z iw, inject_Z ih).
Proof. intros H. unfold ImageReader_getSize. now rewrite H. Qed.

Lemma getSize_unreadable (fs : files) (p : string) :
  fs p = None -> ImageReader_getSize fs p = Raise IOError.
Proof. intros H. unfold ImageReader_getSize. now rewrite H. Qed.

(** [wrap] stores the size computed by its two stages and the available
    area, and answers the available area. *)
Lemma wrap_stages (fs : files) (self : CenteredImage.t) (aw ah : Q)
    (iw ih : Z) (b d : Q * Q) :
  fs (CenteredImage.path self) = Some (iw, ih) ->
  CenteredImage.hinted_size self (inject_Z iw) (inject_Z ih) = Ok b ->
  CenteredImage.fitted_size self aw ah b = Ok d ->
  CenteredImage.wrap fs self aw ah =
    Ok (CenteredImage.mk (CenteredImage.path self) (CenteredImage.draw_w self)
          (CenteredImage.draw_h self) (CenteredImage.scale self)
          (CenteredImage.fit self)
          (Some (fst d)) (Some (snd d)) (Some aw) (Some ah),
        (aw, ah)).
Proof.
  intros Hfs Hb Hd. unfold CenteredImage.wrap.
  rewrite (getSize_readable _ _ _ _ Hfs). cbn [bind].
  rewrite Hb. cbn [bind]. rewrite Hd. destruct d. reflexivity.
Qed.

Lemma fitted_size_no_fit (self : CenteredImage.t) (aw ah : Q) (b : Q * Q) :
  CenteredImage.fit self = false ->
  CenteredImage.fitted_size self aw ah b = Ok b.
Proof.
  intros H. unfold CenteredImage.fitted_size. destruct b. now rewrite H.
Qed.

(** C2 fails as stated: a target width of zero is passed over, and the
    target height alone sizes the image. *)
Lemma wrap_zero_width_target :
  let fs : files := fun _ => Some (10, 10)%Z in
  let self := CenteredImage.init "a.png" (Some 0) (Some 5) None false in
  exists self' dw dh,
    CenteredImage.wrap fs self 100 100 = Ok (self', (100, 100)) /\
    CenteredImage._dw self' = Some dw /\
    CenteredImage._dh self' = Some dh /\
    dw == 5 /\ dh == 5 /\
    ~ size_eq (dw, dh) (precedence_size 10 10 None (Some 0) (Some 5)).
Proof.
  cbv zeta. eexists. eexists. eexists.
  split; [vm_compute; reflexivity|].
  split; [reflexivity|]. split; [reflexivity|].
  split; [reflexivity|]. split; [reflexivity|].
  intros [H _]. vm_compute in H. discriminate H.
Qed.

(** C2, amended: for an image of positive size, the size that [wrap]
    computes from the hints follows the precedence scale factor, both
    targets (smaller ratio), single target, intrinsic size, where a
    target counts as given when it is present and not zero; without the
    fit flag this is the draw size that [wrap] stores. *)
Theorem wrap_hint_precedence (fs : files) (self : CenteredImage.t)
    (aw ah : Q) (iw ih : Z) :
  fs (CenteredImage.path self) = Some (iw, ih) ->
  (0 < iw)%Z -> (0 < ih)%Z ->
  exists bw bh,
    CenteredImage.hinted_size self (inject_Z iw) (inject_Z ih) = Ok (bw, bh) /\
    size_eq (bw, bh)
      (precedence_size (inject_Z iw) (inject_Z ih) (CenteredImage.scale self)
         (given (CenteredImage.draw_w self)) (given (CenteredImage.draw_h self))) /\
    (CenteredImage.fit self = false ->
     exists self',
       CenteredImage.wrap fs self aw ah = Ok (self', (aw, ah)) /\
       CenteredImage._dw self' = Some bw /\
       CenteredImage._dh self' = Some bh).
Proof.
  intros Hfs Hw Hh.
  destruct (hinted_size_precedence self (inject_Z iw) (inject_Z ih))
    as (bw & bh & Hb & Heq); auto using inject_Z_pos.
  exists bw, bh. split; [exact Hb|]. split; [exact Heq|].
  intros Hfit. eexists. split.
  - apply (wrap_stages fs self aw ah iw ih (bw, bh) (bw, bh) Hfs Hb).
    now apply fitted_size_no_fit.
  - split; reflexivity.
Qed.

Lemma wrap_hint_precedence_witness :
  exists bw bh,
    CenteredImage.hinted_size
      (CenteredImage.init "a.png" (Some 400) (Some 200) None false)
      (inject_Z 800) (inject_Z 600) = Ok (bw, bh) /\
    size_eq (bw, bh)
      (precedence_size (inject_Z 800) (inject_Z 600) None (Some 400) (Some 200)) /\
    (false = false ->
     exists self',
       CenteredImage.wrap sample_files
         (CenteredImage.init "a.png" (Some 400) (Some 200) None false) 700 400
       = Ok (self', (700, 400)) /\
       CenteredImage._dw self' = Some bw /\
       CenteredImage._dh self' = Some bh).
Proof.
  apply (wrap_hint_precedence sample_files
           (CenteredImage.init "a.png" (Some 400) (Some 200) None false)
           700 400 800 600); [reflexivity | lia | lia].
Defined.

(* ------------------------------------------------------------------ *)
(** ** [CenteredImage.wrap]: aspect ratio and the fit flag *)









(* ------------------------------------------------------------------ *)
(** ** [CenteredImage.wrap] and [CenteredImage.draw]: the claimed area
       and the place of the image *)

(** Whatever [wrap] answers, it has stored a draw size and the available
    area, and the answer is the available area. *)
Lemma wrap_inv (fs : files) (self self' : CenteredImage.t) (aw ah : Q) (r : Q * Q) :
  CenteredImage.wrap fs self aw ah = Ok (self', r) ->
  r = (aw, ah) /\
  CenteredImage.path self' = CenteredImage.path self /\
  CenteredImage.availW self' = Some aw /\
  CenteredImage.availH self' = Some ah /\
  fs (CenteredImage.path self) <> None /\
  exists dw dh,
    CenteredImage._dw self' = Some dw /\ CenteredImage._dh self' = Some dh.
Proof.
  unfold CenteredImage.wrap, ImageReader_getSize.
  destruct (fs (CenteredImage.path self)) as [[iw ih]|]; [|discriminate].
  cbn [bind].
  destruct (CenteredImage.hinted_size self (inject_Z iw) (inject_Z ih)) as [d0|];
    [|discriminate].
  cbn [bind].
  destruct (CenteredImage.fitted_size self aw ah d0) as [[dw dh]|]; [|discriminate].
  cbn [bind]. intros H. inversion H; subst. cbn.
  repeat split; try reflexivity; try discriminate.
  exists dw, dh. split; reflexivity.
Qed.

(** C8: after [wrap] computed the draw size (dw, dh) for the available
    area W x H, [draw] paints the image at x = (W - dw)/2 - 1 cm and
    y = (H - dh)/2, with that size. *)
Theorem draw_centres_image (fs : files) (self self' : CenteredImage.t)
    (W H : Q) (r : Q * Q) :
  CenteredImage.wrap fs self W H = Ok (self', r) ->
  exists dw dh,
    CenteredImage._dw self' = Some dw /\
    CenteredImage._dh self' = Some dh /\
    CenteredImage.draw self' =
      Ok [drawImage (CenteredImage.path self)
            ((W - dw) / 2 - 1 * cm) ((H - dh) / 2) dw dh] /\
    1 * cm == 3600 # 127.
Proof.
  intros Hwrap.
  destruct (wrap_inv _ _ _ _ _ _ Hwrap) as (_ & Hp & HW & HH & _ & dw & dh & Hdw & Hdh).
  exists dw, dh. split; [exact Hdw|]. split; [exact Hdh|]. split.
  - unfold CenteredImage.draw. rewrite HW, Hdw, HH, Hdh, Hp. reflexivity.
  - reflexivity.
Qed.

Lemma draw_centres_image_witness :
  exists dw dh,
    CenteredImage._dw
      (CenteredImage.mk "a.png" (Some 400) None None false
         (Some (inject_Z 800 * (400 / inject_Z 800)))
         (Some (inject_Z 600 * (400 / inject_Z 800))) (Some 700) (Some 500))
    = Some dw /\
    CenteredImage._dh
      (CenteredImage.mk "a.png" (Some 400) None None false
         (Some (inject_Z 800 * (400 / inject_Z 800)))
         (Some (inject_Z 600 * (400 / inject_Z 800))) (Some 700) (Some 500))
    = Some dh /\
    CenteredImage.draw
      (CenteredImage.mk "a.png" (Some 400) None None false
         (Some (inject_Z 800 * (400 / inject_Z 800)))
         (Some (inject_Z 600 * (400 / inject_Z 800))) (Some 700) (Some 500))
    = Ok [drawImage "a.png" ((700 - dw) / 2 - 1 * cm) ((500 - dh) / 2) dw dh] /\
    1 * cm == 3600 # 127.
Proof.
  apply (draw_centres_image sample_files
           (CenteredImage.init "a.png" (Some 400) None None false) _ 700 500 (700, 500)).
  reflexivity.
Defined.



(** An image that is placed in a frame uses up all that was left of it. *)
Lemma add_centered_fills_frame (fs : files) (tm : text_metrics) (fr fr' : Frame.t)
    (img : CenteredImage.t) (ops : list canvas_op) :
  Frame._add fs tm fr (Centered img) = Ok (Some (fr', ops)) ->
  Frame._y fr' == Frame._y1p fr' /\ fs (CenteredImage.path img) <> None.
Proof.
  unfold Frame._add.
  set (s := if Frame._atTop fr then 0
            else pymax (getSpaceBefore (Centered img) - Frame._prevASpace fr) 0).
  destruct (negb (Qle_bool (Frame._y fr - Frame._y1p fr - s) 0)); [|discriminate].
  cbn [wrap].
  destruct (CenteredImage.wrap fs img (Frame._aW fr) (Frame._y fr - Frame._y1p fr - s))
    as [[img' r]|] eqn:Hwrap; [|discriminate].
  destruct (wrap_inv _ _ _ _ _ _ Hwrap) as (Er & _ & _ & _ & Hread & _).
  subst r. cbn [bind].
  destruct (negb _); [discriminate|].
  destruct (draw (Centered img')) as [o|]; [|discriminate].
  cbn [bind]. intros H. inversion H; subst. cbn.
  split; [|exact Hread].
  unfold Frame._y1p, getSpaceAfter. cbn. ring.
Qed.



(* ------------------------------------------------------------------ *)
(** ** [draw_cover]: the height of the title *)

Lemma draw_cover_title (fs : files) (doc : doc_t) (width height : Q)
    (image_path file_name : string) (off t : Q) (ops : list canvas_op) :
  pagesize doc = (width, height) ->
  draw_cover fs doc image_path file_name off t = Ok ops ->
  In (drawCentredString (width / 2) (cover_text_y height t) file_name) ops.
Proof.
  intros Hp. unfold draw_cover. rewrite Hp.
  destruct (ImageReader_getSize fs image_path) as [[iw ih]|]; [|discriminate].
  cbn [bind].
  destruct (pydiv (width * 1.2) iw); [|discriminate]. cbn [bind].
  destruct (pydiv (height * 0.9) ih); [|discriminate]. cbn [bind].
  intros H. inversion H; subst. cbn. tauto.
Qed.

(** C9 fails as stated: on a page 2 cm high the title is drawn at 1 cm,
    above the page height less 1.5 cm. *)
Lemma cover_title_on_short_page :
  let doc := {| pagesize := (3 * cm, 2 * cm); page := 1 |} in
  exists ops,
    draw_cover sample_files doc "resources/cover.jpg" "Julio" (-1.0) 5.8 = Ok ops /\
    In (drawCentredString (3 * cm / 2) (cover_text_y (2 * cm) 5.8) "Julio") ops /\
    cover_text_y (2 * cm) 5.8 == 1 * cm /\
    ~ cover_text_y (2 * cm) 5.8 <= 2 * cm - 1.5 * cm.
Proof.
  cbv zeta. eexists. split; [vm_compute; reflexivity|].
  split; [cbn; tauto|].
  split; [reflexivity|].
  intros H. vm_compute in H. apply H. reflexivity.
Qed.

(** C9, amended: the title of the cover is drawn at the configured
    distance from the page bottom clamped from below at 1 cm and, above
    that, from above at the page height less 1.5 cm.  It is never below
    1 cm; on a page at least 2.5 cm high it is never above the page height
    less 1.5 cm, and it is the configured distance itself whenever that
    lies between the two bounds. *)
Theorem cover_title_clamped (height t : Q) :
  1 * cm <= cover_text_y height t /\
  (2.5 * cm <= height ->
     cover_text_y height t <= height - 1.5 * cm /\
     (1 * cm <= t * cm <= height - 1.5 * cm -> cover_text_y height t == t * cm) /\
     (t * cm < 1 * cm -> cover_text_y height t == 1 * cm) /\
     (height - 1.5 * cm < t * cm -> cover_text_y height t == height - 1.5 * cm)) /\
  (forall fs doc width image_path file_name off ops,
     pagesize doc = (width, height) ->
     draw_cover fs doc image_path file_name off t = Ok ops ->
     In (drawCentredString (width / 2) (cover_text_y height t) file_name) ops).
Proof.
  split; [|split].
  - unfold cover_text_y.
    destruct (pymax_cases (1.0 * cm)
                (pymin (t * cm) (height - 1.5 * cm))) as [[H E]|[H E]];
      rewrite E; lra.
  - intros Hh. unfold cover_text_y.
    destruct (pymin_cases (t * cm) (height - 1.5 * cm)) as [[H1 E1]|[H1 E1]];
      rewrite E1;
      destruct (pymax_cases (1.0 * cm) (t * cm)) as [[H2 E2]|[H2 E2]];
      destruct (pymax_cases (1.0 * cm) (height - 1.5 * cm)) as [[H3 E3]|[H3 E3]];
      rewrite ?E2, ?E3; repeat split; intros; lra.
  - intros fs doc width image_path file_name off ops Hp Hd.
    exact (draw_cover_title fs doc width height image_path file_name off t ops Hp Hd).
Qed.

Lemma cover_title_clamped_witness :
  cover_text_y (snd (landscape A4)) 5.8 <= snd (landscape A4) - 1.5 * cm /\
  cover_text_y (snd (landscape A4)) 5.8 == 5.8 * cm.
Proof.
  destruct (proj1 (proj2 (cover_title_clamped (snd (landscape A4)) 5.8)))
    as (Hle & Hmid & _).
  - vm_compute. discriminate.
  - split; [exact Hle|]. apply Hmid. split; vm_compute; discriminate.
Defined.

(* ------------------------------------------------------------------ *)
(** ** The visitor count of the footer *)

Lemma string_of_uint_digits (d : Decimal.uint) :
  Forall is_digit (list_ascii_of_string (NilEmpty.string_of_uint d)).
Proof.
  induction d; cbn [NilEmpty.string_of_uint list_ascii_of_string];
    constructor; try assumption; unfold is_digit; cbn; tauto.
Qed.

Lemma str_nonneg_digits (n : Z) :
  (0 <= n)%Z -> Forall is_digit (list_ascii_of_string (str n)).
Proof.
  intros Hn. unfold str. destruct n as [|p|p]; [| |lia].
  - cbn. constructor; [unfold is_digit; cbn; tauto|constructor].
  - cbn [Z.to_int NilZero.string_of_int]. unfold NilZero.string_of_uint.
    destruct (Pos.to_uint p) eqn:E; try (rewrite <- E; apply string_of_uint_digits).
    cbn. constructor; [unfold is_digit; cbn; tauto|constructor].
Qed.

Lemma is_digit_not_sep (c : ascii) :
  is_digit c -> c <> ","%char /\ c <> "."%char /\ c <> "-"%char.
Proof.
  unfold is_digit. cbn. intros H.
  repeat (destruct H as [H|H]; [subst c; repeat split; discriminate|]).
  contradiction.
Qed.

Lemma replace_chars (old new : ascii) (s : string) :
  list_ascii_of_string (replace old new s) =
  map (fun c => if Ascii.eqb c old then new else c) (list_ascii_of_string s).
Proof.
  induction s as [|c s IH]; cbn; [reflexivity|]. now rewrite IH.
Qed.

Lemma group3_replace_sep (old new : ascii) (l : list ascii) (k : nat) :
  ~ In old l ->
  map (fun c => if Ascii.eqb c old then new else c) (group3 old l k) = group3 new l k.
Proof.
  revert k. induction l as [|c l IH]; intros k Hl; [reflexivity|].
  assert (Hc : Ascii.eqb c old = false).
  { apply Ascii.eqb_neq. intros E. apply Hl. left. now symmetry. }
  assert (Hl' : ~ In old l) by (intros H; apply Hl; now right).
  destruct k as [|[|[|[|k]]]]; cbn [group3 map];
    rewrite ?Ascii.eqb_refl, ?Hc, (IH _ Hl'); reflexivity.
Qed.

Lemma group3_strip_sep (sep : ascii) (l : list ascii) (k : nat) :
  ~ In sep l ->
  filter (fun c => negb (Ascii.eqb c sep)) (group3 sep l k) = l.
Proof.
  revert k. induction l as [|c l IH]; intros k Hl; [reflexivity|].
  assert (Hc : Ascii.eqb c sep = false).
  { apply Ascii.eqb_neq. intros E. apply Hl. left. now symmetry. }
  assert (Hl' : ~ In sep l) by (intros H; apply Hl; now right).
  destruct k as [|[|[|[|k]]]]; cbn [group3 filter];
    rewrite ?Ascii.eqb_refl, ?Hc; cbn [negb]; rewrite (IH _ Hl'); reflexivity.
Qed.

Lemma group3_sep_positions (sep : ascii) (l : list ascii) :
  ~ In sep l ->
  forall k i, (k <= 3)%nat ->
    nth_error (group3 sep l k) i = Some sep <->
    ((i + k) mod 4 = 3 /\ i < List.length (group3 sep l k))%nat.
Proof.
  induction l as [|c l IH]; intros Hl k i Hk.
  - cbn. destruct i; cbn; split; try discriminate; intros [_ H]; lia.
  - assert (Hc : c <> sep) by (intros E; apply Hl; left; now symmetry).
    assert (Hl' : ~ In sep l) by (intros H; apply Hl; now right).
    destruct k as [|[|[|[|k]]]]; [| | | |lia]; cbn [group3].
    + destruct i as [|j]; cbn [nth_error List.length].
      * split; [intros H; inversion H; contradiction|intros [H _]; cbn in H; lia].
      * rewrite (IH Hl' 1%nat j) by lia.
        replace ((S j + 0) mod 4)%nat with ((j + 1) mod 4)%nat by (f_equal; lia).
        split; intros [H1 H2]; split; auto; lia.
    + destruct i as [|j]; cbn [nth_error List.length].
      * split; [intros H; inversion H; contradiction|intros [H _]; cbn in H; lia].
      * rewrite (IH Hl' 2%nat j) by lia.
        replace ((S j + 1) mod 4)%nat with ((j + 2) mod 4)%nat by (f_equal; lia).
        split; intros [H1 H2]; split; auto; lia.
    + destruct i as [|j]; cbn [nth_error List.length].
      * split; [intros H; inversion H; contradiction|intros [H _]; cbn in H; lia].
      * rewrite (IH Hl' 3%nat j) by lia.
        replace ((S j + 2) mod 4)%nat with ((j + 3) mod 4)%nat by (f_equal; lia).
        split; intros [H1 H2]; split; auto; lia.
    + destruct i as [|[|j]]; cbn [nth_error List.length].
      * split; [intros _; split; [reflexivity|lia]|reflexivity].
      * split; [intros H; inversion H; contradiction|intros [H _]; cbn in H; lia].
      * rewrite (IH Hl' 1%nat j) by lia.
        replace ((S (S j) + 3) mod 4)%nat with ((j + 1) mod 4)%nat.
        -- split; intros [H1 H2]; split; auto; lia.
        -- replace (S (S j) + 3)%nat with ((j + 1) + 1 * 4)%nat by lia.
           now rewrite Nat.Div0.mod_add.
Qed.

Lemma digits_no_sep (sep : ascii) (l : list ascii) :
  sep = ","%char \/ sep = "."%char ->
  Forall is_digit l -> ~ In sep (rev l).
Proof.
  intros Hsep Hl Hin. apply in_rev in Hin.
  rewrite Forall_forall in Hl. apply Hl in Hin.
  apply is_digit_not_sep in Hin. destruct Hin as (H1 & H2 & _).
  destruct Hsep; contradiction.
Qed.

(** The characters of the visitor count: the decimal digits, grouped
    with dots from the last digit. *)
Lemma vis_str_chars (n : Z) :
  (0 <= n)%Z ->
  list_ascii_of_string (vis_str n) =
  rev (group3 "." (rev (list_ascii_of_string (str n))) 0).
Proof.
  intros Hn. unfold vis_str, format_thousands.
  rewrite replace_chars, list_ascii_of_string_of_list_ascii.
  assert (E : (n <? 0)%Z = false) by (apply Z.ltb_ge; exact Hn).
  rewrite E, Z.abs_eq by exact Hn. cbn [app].
  rewrite map_rev, group3_replace_sep; [reflexivity|].
  apply digits_no_sep; [now left|now apply str_nonneg_digits].
Qed.

(** C7: the visitor count of the footer is the decimal numeral with its
    digits in groups of three from the right, separated by dots and never
    by commas; 1234567 is drawn as "1.234.567". *)
Theorem visitors_grouped_with_dots :
  vis_str 1234567 = "1.234.567" /\
  (forall fs tm doc file_name n title,
     exists x y,
       In (drawString x y (vis_str n))
          (draw_common_elements fs tm doc file_name n title)) /\
  (forall n, (0 <= n)%Z ->
     let cs := list_ascii_of_string (vis_str n) in
     ~ In ","%char cs /\
     filter (fun c => negb (Ascii.eqb c ".")) cs = list_ascii_of_string (str n) /\
     (forall i, nth_error (rev cs) i = Some "."%char <->
                (i mod 4 = 3 /\ i < List.length cs)%nat)).
Proof.
  split; [reflexivity|]. split.
  - intros fs tm doc file_name n title.
    unfold draw_common_elements. destruct (pagesize doc) as [width height].
    eexists. eexists. apply in_or_app. right. apply in_or_app. right.
    cbn. right. right. right. left. reflexivity.
  - intros n Hn cs. unfold cs. rewrite (vis_str_chars n Hn).
    pose proof (str_nonneg_digits n Hn) as Hd.
    pose proof (digits_no_sep "." _ (or_intror eq_refl) Hd) as Hdot.
    split; [|split].
    + intros Hin. apply in_rev in Hin.
      assert (Hin' : In ","%char
                (filter (fun c => negb (Ascii.eqb c "."))
                   (group3 "." (rev (list_ascii_of_string (str n))) 0))).
      { apply filter_In. split; [exact Hin|reflexivity]. }
      rewrite (group3_strip_sep "." _ 0 Hdot) in Hin'.
      exact (digits_no_sep "," _ (or_introl eq_refl) Hd Hin').
    + assert (Hrev : forall l : list ascii,
                 filter (fun c => negb (Ascii.eqb c ".")) (rev l) =
                 rev (filter (fun c => negb (Ascii.eqb c ".")) l)).
      { induction l as [|c l IH]; [reflexivity|].
        cbn [rev filter]. rewrite filter_app, IH. cbn [filter].
        destruct (negb (Ascii.eqb c ".")); cbn [rev]; [reflexivity|].
        now rewrite app_nil_r. }
      rewrite Hrev, (group3_strip_sep "." _ 0 Hdot). apply rev_involutive.
    + intros i. rewrite rev_involutive, length_rev.
      rewrite (group3_sep_positions "." _ Hdot 0%nat i) by lia.
      now rewrite Nat.add_0_r.
Qed.

Lemma visitors_grouped_with_dots_witness :
  ~ In ","%char (list_ascii_of_string (vis_str 1000000)) /\
  nth_error (rev (list_ascii_of_string (vis_str 1000000))) 3 = Some "."%char.
Proof.
  destruct (proj2 (proj2 visitors_grouped_with_dots) 1000000%Z) as (H1 & _ & H3).
  - lia.
  - split; [exact H1|]. apply H3. split; [reflexivity|].
    vm_compute. lia.
Defined.

(* ------------------------------------------------------------------ *)
(** ** The story *)

Lemma fold_story (total : nat) (l : list string) :
  forall (start : nat) (acc : list flowable),
    (start + List.length l = total)%nat ->
    fold_left
      (fun story ip =>
         let '(i, p) := ip in
         let story :=
           story ++ [Centered (CenteredImage.init p (Some (26 * cm)) None None false)] in
         if (Z.of_nat i <? Z.of_nat total - 1)%Z then story ++ [PageBreak] else story)
      (combine (seq start (List.length l)) l) acc
    = acc ++ body_story l.
Proof.
  induction l as [|p l IH]; intros start acc Hlen.
  - cbn. now rewrite app_nil_r.
  - cbn [List.length seq combine fold_left body_story].
    cbn [List.length] in Hlen.
    destruct l as [|q l].
    + cbn [List.length] in *.
      assert (E : (Z.of_nat start <? Z.of_nat total - 1)%Z = false)
        by (apply Z.ltb_ge; lia).
      rewrite E. cbn. reflexivity.
    + assert (E : (Z.of_nat start <? Z.of_nat total - 1)%Z = true)
        by (apply Z.ltb_lt; cbn [List.length] in Hlen; lia).
      rewrite E. rewrite (IH (S start)) by lia.
      rewrite <- !app_assoc. reflexivity.
Qed.

Lemma build_story_eq (page_images : option (list string)) :
  build_story page_images = story_prefix ++ body_story (images_of page_images).
Proof.
  destruct page_images as [[|p l]|]; try reflexivity.
  unfold build_story, images_of.
  apply (fold_story (List.length (p :: l)) (p :: l) 0). reflexivity.
Qed.

(* ------------------------------------------------------------------ *)
(** ** The layout engine on the story of [build_pdf] *)

Lemma Qle_bool_false (a b : Q) : b < a -> Qle_bool a b = false.
Proof.
  intros H. destruct (Qle_bool a b) eqn:E; [|reflexivity].
  apply Qle_bool_iff in E. lra.
Qed.

Lemma Qle_bool_true (a b : Q) : a <= b -> Qle_bool a b = true.
Proof. intros H. now apply Qle_bool_iff. Qed.

(** A flowable that fits at the top of a frame is placed there. *)
Lemma add_at_top (fs : files) (tm : text_metrics) (fr : Frame.t)
    (f f' : flowable) (w h : Q) (ops : list canvas_op) :
  Frame._atTop fr = true ->
  0 < Frame._y fr - Frame._y1p fr - 0 ->
  wrap fs tm f (Frame._aW fr) (Frame._y fr - Frame._y1p fr - 0) = Ok (f', (w, h)) ->
  Frame._y1p fr - _FUZZ <= Frame._y fr - (h + 0) ->
  draw f' = Ok ops ->
  exists fr',
    Frame._add fs tm fr f =
    Ok (Some (fr', [saveState; translate (Frame._x fr) (Frame._y fr - (h + 0))]
                   ++ ops ++ [restoreState])).
Proof.
  intros Htop Hroom Hwrap Hfit Hdraw. unfold Frame._add.
  rewrite Htop, (Qle_bool_false _ _ Hroom). cbn [negb].
  rewrite Hwrap. cbn [bind].
  rewrite (Qle_bool_true _ _ Hfit). cbn [negb].
  rewrite Hdraw. cbn [bind]. eexists. reflexivity.
Qed.

(** An exception of [wrap] goes through [Frame._add]. *)
Lemma add_wrap_raises (fs : files) (tm : text_metrics) (fr : Frame.t)
    (f : flowable) (e : exn) :
  Frame._atTop fr = true ->
  0 < Frame._y fr - Frame._y1p fr - 0 ->
  wrap fs tm f (Frame._aW fr) (Frame._y fr - Frame._y1p fr - 0) = Raise e ->
  Frame._add fs tm fr f = Raise e.
Proof.
  intros Htop Hroom Hwrap. unfold Frame._add.
  rewrite Htop, (Qle_bool_false _ _ Hroom). cbn [negb].
  rewrite Hwrap. reflexivity.
Qed.

(** A flowable that is too high for the top of a frame is not placed. *)
Lemma add_too_high (fs : files) (tm : text_metrics) (fr : Frame.t)
    (f f' : flowable) (w h : Q) :
  Frame._atTop fr = true ->
  0 < Frame._y fr - Frame._y1p fr - 0 ->
  wrap fs tm f (Frame._aW fr) (Frame._y fr - Frame._y1p fr - 0) = Ok (f', (w, h)) ->
  Qle_bool (Frame._y1p fr - _FUZZ) (Frame._y fr - (h + 0)) = false ->
  Frame._add fs tm fr f = Ok None.
Proof.
  intros Htop Hroom Hwrap Hfit. unfold Frame._add.
  rewrite Htop, (Qle_bool_false _ _ Hroom). cbn [negb].
  rewrite Hwrap. cbn [bind]. rewrite Hfit. reflexivity.
Qed.

Lemma reset_room (fr0 : Frame.t) (h : Q) :
  h <= Frame._aH fr0 ->
  Frame._y1p (Frame._reset fr0) - _FUZZ <= Frame._y (Frame._reset fr0) - (h + 0).
Proof.
  unfold Frame._aH, Frame._y2, Frame._y1p, Frame._reset, _FUZZ, Frame.padding.
  cbn [Frame._y Frame._y1 Frame._height]. unfold Frame._y2. intros H. lra.
Qed.

Lemma body_frame_room :
  0 < Frame._y (Frame._reset frame_body) - Frame._y1p (Frame._reset frame_body) - 0.
Proof. reflexivity. Qed.

Lemma cover_frame_room :
  0 < Frame._y (Frame._reset frame_cover) - Frame._y1p (Frame._reset frame_cover) - 0.
Proof. reflexivity. Qed.

Lemma body_frame_fits :
  Frame._y1p (Frame._reset frame_body) - _FUZZ <=
  Frame._y (Frame._reset frame_body)
  - (Frame._y (Frame._reset frame_body) - Frame._y1p (Frame._reset frame_body) - 0 + 0).
Proof. vm_compute. discriminate. Qed.

(** What [wrap] and [draw] do for a page image that has a width. *)
Lemma page_image_wrap_draw (fs : files) (p : string) (iw ih : Z) (aw ah : Q) :
  fs p = Some (iw, ih) -> ~ inject_Z iw == 0 ->
  exists img',
    CenteredImage.wrap fs (page_image p) aw ah = Ok (img', (aw, ah)) /\
    CenteredImage.draw img' =
      Ok [drawImage p
            ((aw - inject_Z iw * (26 * cm / inject_Z iw)) / 2 - 1 * cm)
            ((ah - inject_Z ih * (26 * cm / inject_Z iw)) / 2)
            (inject_Z iw * (26 * cm / inject_Z iw))
            (inject_Z ih * (26 * cm / inject_Z iw))].
Proof.
  intros Hfs Hw0.
  assert (Hb : CenteredImage.hinted_size (page_image p) (inject_Z iw) (inject_Z ih)
               = Ok (inject_Z iw * (26 * cm / inject_Z iw),
                     inject_Z ih * (26 * cm / inject_Z iw))).
  { unfold CenteredImage.hinted_size, page_image, CenteredImage.init.
    cbn [CenteredImage.scale CenteredImage.draw_w CenteredImage.draw_h].
    change (truthy (Some (26 * cm))) with true.
    cbn [truthy andb num bind]. rewrite (pydiv_nonzero _ _ Hw0). reflexivity. }
  eexists. split.
  - apply (wrap_stages fs (page_image p) aw ah iw ih _ _ Hfs Hb
             (fitted_size_no_fit (page_image p) aw ah _ eq_refl)).
  - reflexivity.
Qed.

(** [wrap] raises what [page_image_check] tells. *)
Lemma page_image_wrap_raises (fs : files) (p : string) (e : exn) (aw ah : Q) :
  page_image_check fs p = Raise e ->
  CenteredImage.wrap fs (page_image p) aw ah = Raise e.
Proof.
  unfold page_image_check, CenteredImage.wrap, ImageReader_getSize.
  cbn [page_image CenteredImage.init CenteredImage.path].
  destruct (fs p) as [[iw ih]|]; [|intros H; inversion H; reflexivity].
  destruct (Qeq_bool (inject_Z iw) 0) eqn:E; [|discriminate].
  intros H. inversion H; subst e. cbn [bind]. unfold CenteredImage.hinted_size.
  cbn [CenteredImage.scale CenteredImage.draw_w CenteredImage.draw_h].
  change (truthy (Some (26 * cm))) with true.
  cbn [truthy andb num bind]. unfold pydiv. rewrite E. reflexivity.
Qed.

Lemma page_image_check_ok (fs : files) (p : string) :
  page_image_check fs p = Ok tt ->
  exists iw ih, fs p = Some (iw, ih) /\ ~ inject_Z iw == 0.
Proof.
  unfold page_image_check.
  destruct (fs p) as [[iw ih]|]; [|discriminate].
  destruct (Qeq_bool (inject_Z iw) 0) eqn:E; [discriminate|].
  intros _. exists iw, ih. split; [reflexivity|].
  intros H. apply Qeq_eq_bool in H. congruence.
Qed.

Section Report.

Variable fs : files.
Variable tm : text_metrics.
Variable file_name : string.
Variable total_visitors : Z.

Local Abbreviation T :=
  [cover_tpl fs file_name; body_tpl fs tm file_name total_visitors].
Local Abbreviation decor k :=
  (draw_common_elements fs tm {| pagesize := landscape A4; page := k |}
     file_name total_visitors "Estadísticas elBulli1846").
Local Abbreviation cover_call k :=
  (draw_cover fs {| pagesize := landscape A4; page := k |}
     "resources/cover.jpg" file_name (-1.0) 5.8).

Ltac open_state d H :=
  destruct d as [s_ps s_pg s_tpl s_nxt s_fr s_hang s_cnt s_emp s_pages s_code];
  cbn [doc_pagesize doc_page pageTemplate _nextPageTemplateIndex frame _hanging
       _curPageFlowableCount _emptyPages canv_pages canv_code] in H.

(** After a page ended, the next turn begins a body page: header and
    footer are drawn and the body frame is reset. *)
Lemma begin_body_page (d : Platypus.t) (k : Z) (P : list (list canvas_op)) :
  page_ended d k P ->
  clean_hanging T d =
  Ok (Platypus.mk (landscape A4) (k + 1) 1 None (Frame._reset frame_body) [] 0 0 P
        (decor (k + 1)%Z)).
Proof.
  intros H. unfold page_ended in H. open_state d H.
  destruct H as (-> & -> & -> & -> & -> & -> & -> & ->).
  reflexivity.
Qed.

(** An image that is read and has a width is placed on a page of its
    own. *)
Lemma turn_image (d : Platypus.t) (k : Z) (P : list (list canvas_op))
    (p : string) (iw ih : Z) :
  page_ended d k P ->
  fs p = Some (iw, ih) -> ~ inject_Z iw == 0 ->
  exists d',
    turn fs tm T (Centered (page_image p)) d = Ok d' /\
    page_open d' (k + 1) P (body_page fs tm file_name total_visitors (k + 1) p).
Proof.
  intros Hd Hfs Hw. unfold turn. rewrite (begin_body_page d k P Hd). cbn [bind].
  destruct (page_image_wrap_draw fs p iw ih
              (Frame._aW (Frame._reset frame_body))
              (Frame._y (Frame._reset frame_body)
               - Frame._y1p (Frame._reset frame_body) - 0) Hfs Hw)
    as (img' & Hwrap & Hdraw).
  destruct (add_at_top fs tm (Frame._reset frame_body) (Centered (page_image p))
              (Centered img') _ _ _ eq_refl body_frame_room
              ltac:(cbn [wrap]; rewrite Hwrap; reflexivity)
              body_frame_fits Hdraw) as (fr' & Hadd).
  unfold handle_flowable. cbn [page_image frame].
  change (CenteredImage.init p (Some (26 * cm)) None None false) with (page_image p).
  rewrite Hadd. cbn [bind].
  eexists. split; [reflexivity|].
  unfold page_open, body_page.
  cbn [doc_pagesize doc_page pageTemplate _nextPageTemplateIndex frame _hanging
       _curPageFlowableCount _emptyPages canv_pages canv_code].
  rewrite Hfs. repeat split; try reflexivity. discriminate.
Qed.

(** An image that [wrap] cannot size stops the build with the exception
    of [wrap]. *)
Lemma turn_image_raises (d : Platypus.t) (k : Z) (P : list (list canvas_op))
    (p : string) (e : exn) :
  page_ended d k P ->
  page_image_check fs p = Raise e ->
  turn fs tm T (Centered (page_image p)) d = Raise e.
Proof.
  intros Hd Hp. unfold turn. rewrite (begin_body_page d k P Hd). cbn [bind].
  unfold handle_flowable. cbn [page_image frame].
  change (CenteredImage.init p (Some (26 * cm)) None None false) with (page_image p).
  rewrite (add_wrap_raises fs tm (Frame._reset frame_body) (Centered (page_image p)) e
             eq_refl body_frame_room); [reflexivity|].
  cbn [wrap]. now rewrite (page_image_wrap_raises fs p e _ _ Hp).
Qed.

(** A page break after an image ends the page. *)
Lemma turn_break (d : Platypus.t) (k : Z) (P : list (list canvas_op))
    (code : list canvas_op) :
  page_open d k P code ->
  exists d',
    turn fs tm T PageBreak d = Ok d' /\ page_ended d' k (P ++ [code]).
Proof.
  intros H. unfold page_open in H. open_state d H.
  destruct H as (-> & -> & -> & -> & -> & -> & Hcnt & -> & ->).
  destruct s_cnt as [|s_cnt]; [contradiction|].
  eexists. split; [reflexivity|].
  unfold page_ended. cbn. repeat split; reflexivity.
Qed.

(** At the end of the story the open page is shown. *)
Lemma end_build_open (d : Platypus.t) (k : Z) (P : list (list canvas_op))
    (code : list canvas_op) :
  page_open d k P code ->
  _endBuild T d = Ok (P ++ [code]).
Proof.
  intros H. unfold page_open in H. open_state d H.
  destruct H as (-> & -> & -> & -> & -> & -> & Hcnt & -> & ->).
  destruct s_cnt as [|s_cnt]; [contradiction|].
  reflexivity.
Qed.

(** A story that ends on a page break leaves no page to show. *)
Lemma end_build_ended (d : Platypus.t) (k : Z) (P : list (list canvas_op)) :
  page_ended d k P ->
  _endBuild T d = Ok P.
Proof.
  intros H. unfold page_ended in H. open_state d H.
  destruct H as (-> & -> & -> & -> & -> & -> & -> & ->).
  reflexivity.
Qed.

Lemma draw_cover_ok (doc : doc_t) (image_path : string) (off t : Q) (iw ih : Z) :
  fs image_path = Some (iw, ih) -> (0 < iw)%Z -> (0 < ih)%Z ->
  exists ops, draw_cover fs doc image_path file_name off t = Ok ops.
Proof.
  intros Hfs Hw Hh.
  apply inject_Z_pos in Hw, Hh.
  assert (Hw0 : ~ inject_Z iw == 0) by lra.
  assert (Hh0 : ~ inject_Z ih == 0) by lra.
  unfold draw_cover. destruct (pagesize doc) as [width height].
  rewrite (getSize_readable _ _ _ _ Hfs). cbn [bind].
  rewrite (pydiv_nonzero _ _ Hw0), (pydiv_nonzero _ _ Hh0). cbn [bind].
  eexists. reflexivity.
Qed.

(** The cover callback does not look at the page index. *)
Lemma cover_call_any_page (k : Z) : cover_call k = cover_call 1%Z.
Proof. reflexivity. Qed.

(** The first turn begins the cover page. *)
Lemma begin_cover_page (cover : list canvas_op) :
  cover_call 1%Z = Ok cover ->
  clean_hanging T (handle_documentBegin (landscape A4) frame_cover) =
  Ok (Platypus.mk (landscape A4) 1 0 None (Frame._reset frame_cover) [] 0 0 [] cover).
Proof.
  intros Hc. unfold clean_hanging, handle_documentBegin.
  cbn [_hanging run_hanging]. unfold handle_pageBegin, current_template.
  cbn [doc_pagesize doc_page pageTemplate _nextPageTemplateIndex frame _hanging
       _curPageFlowableCount _emptyPages canv_pages canv_code nth_error bind
       onPage cover_tpl pt_frame].
  change (0 + 1)%Z with 1%Z. rewrite Hc. reflexivity.
Qed.

(** A cover callback that raises stops the build at once. *)
Lemma cover_prefix_raises (e : exn) :
  cover_call 1%Z = Raise e ->
  turns fs tm T story_prefix (handle_documentBegin (landscape A4) frame_cover)
  = Raise e.
Proof.
  intros Hc. unfold story_prefix. cbn [turns]. unfold turn at 1.
  unfold clean_hanging, handle_documentBegin.
  cbn [_hanging run_hanging]. unfold handle_pageBegin, current_template.
  cbn [doc_pagesize doc_page pageTemplate _nextPageTemplateIndex frame _hanging
       _curPageFlowableCount _emptyPages canv_pages canv_code nth_error bind
       onPage cover_tpl pt_frame].
  change (0 + 1)%Z with 1%Z. rewrite Hc. reflexivity.
Qed.

(** A blank paragraph higher than the cover frame is put back once and
    then gives [LayoutError]. *)
Lemma cover_prefix_too_high (cover : list canvas_op) :
  cover_call 1%Z = Ok cover ->
  paragraph_fits tm = false ->
  turns fs tm T story_prefix (handle_documentBegin (landscape A4) frame_cover)
  = Raise LayoutError.
Proof.
  intros Hc Hfit.
  pose proof (add_too_high fs tm (Frame._reset frame_cover) (Paragraph " ")
                (Paragraph " ") _ _ eq_refl cover_frame_room eq_refl Hfit) as Hadd.
  unfold story_prefix. cbn [turns]. unfold turn at 1.
  rewrite (begin_cover_page cover Hc). cbn [bind].
  unfold handle_flowable at 1. cbn [frame]. rewrite Hadd. cbn [bind].
  unfold handle_frameEnd, handle_pageEnd.
  cbn [doc_pagesize doc_page pageTemplate _nextPageTemplateIndex frame _hanging
       _curPageFlowableCount _emptyPages canv_pages canv_code bind app Nat.leb
       _emptyPagesAllowed].
  unfold clean_hanging.
  cbn [doc_pagesize doc_page pageTemplate _nextPageTemplateIndex frame _hanging
       _curPageFlowableCount _emptyPages canv_pages canv_code run_hanging].
  unfold handle_pageBegin, current_template.
  cbn [doc_pagesize doc_page pageTemplate _nextPageTemplateIndex frame _hanging
       _curPageFlowableCount _emptyPages canv_pages canv_code nth_error bind
       onPage cover_tpl pt_frame].
  change (draw_cover fs {| pagesize := landscape A4; page := 1 + 1 |}
            "resources/cover.jpg" file_name (-1.0) 5.8) with (cover_call 1%Z).
  rewrite Hc. cbn [bind]. unfold handle_flowable. cbn [frame].
  rewrite Hadd. reflexivity.
Qed.

(** The first three flowables make the cover page and switch to the body
    template. *)
Lemma cover_prefix (cover : list canvas_op) :
  cover_call 1%Z = Ok cover ->
  paragraph_fits tm = true ->
  exists d1,
    turns fs tm T story_prefix (handle_documentBegin (landscape A4) frame_cover) = Ok d1 /\
    page_ended d1 1 [cover ++ cover_paragraph_ops tm].
Proof.
  intros Hc Hfit.
  destruct (add_at_top fs tm (Frame._reset frame_cover) (Paragraph " ")
              (Paragraph " ") _ _ _ eq_refl cover_frame_room eq_refl
              (proj1 (Qle_bool_iff _ _) Hfit) eq_refl) as (fr' & Hadd).
  unfold story_prefix. cbn [turns]. unfold turn at 1.
  rewrite (begin_cover_page cover Hc). cbn [bind].
  unfold handle_flowable at 1. cbn [frame]. rewrite Hadd. cbn [bind].
  eexists. split; [reflexivity|].
  unfold page_ended. cbn. repeat split; reflexivity.
Qed.

Lemma turns_app (a b : list flowable) (d : Platypus.t) :
  turns fs tm T (a ++ b) d = (d' <- turns fs tm T a d ;; turns fs tm T b d').
Proof.
  revert d. induction a as [|f a IH]; intros d; [reflexivity|].
  cbn [app turns]. destruct (turn fs tm T f d) as [d1|e]; [|reflexivity].
  cbn [bind]. apply IH.
Qed.

(** The body of the story: every image gets the next page, and the first
    image that [wrap] cannot size stops the build. *)
Lemma body_build (l : list string) :
  forall (d : Platypus.t) (k : Z) (P : list (list canvas_op)),
    page_ended d k P -> l <> [] ->
    (d' <- turns fs tm T (body_story l) d ;; _endBuild T d') =
    (_ <- page_images_check fs l ;;
     Ok (P ++ body_pages fs tm file_name total_visitors (k + 1) l)).
Proof.
  induction l as [|p l IH]; intros d k P Hd Hne; [contradiction|].
  cbn [body_story turns page_images_check body_pages].
  destruct (page_image_check fs p) as [[]|e] eqn:Hp.
  - destruct (page_image_check_ok fs p Hp) as (iw & ih & Hfs & Hw).
    destruct (turn_image d k P p iw ih Hd Hfs Hw) as (d1 & Hturn & Hopen).
    rewrite Hturn. cbn [bind].
    destruct l as [|q l].
    + cbn [turns bind page_images_check body_pages].
      apply (end_build_open d1 (k + 1) P _ Hopen).
    + destruct (turn_break d1 (k + 1) P _ Hopen) as (d2 & Hbreak & Hended).
      cbn [turns] in *. rewrite Hbreak. cbn [bind].
      rewrite (IH d2 (k + 1)%Z _ Hended) by discriminate.
      destruct (page_images_check fs (q :: l)); [|reflexivity].
      cbn [bind]. now rewrite <- app_assoc.
  - rewrite (turn_image_raises d k P p e Hd Hp). reflexivity.
Qed.

(** The outcome of [build_pdf], for every input. *)
Lemma build_pdf_result (output_path titulo : string)
    (page_images : option (list string)) :
  build_pdf fs tm output_path titulo file_name total_visitors page_images =
  build_result fs tm file_name total_visitors (images_of page_images).
Proof.
  unfold build_pdf, build, build_result. cbn [pt_frame cover_tpl].
  rewrite build_story_eq, turns_app.
  destruct (cover_call 1%Z) as [cover|e] eqn:Hc.
  - cbn [bind]. destruct (paragraph_fits tm) eqn:Hfit.
    + destruct (cover_prefix cover Hc Hfit) as (d1 & Hprefix & Hended).
      rewrite Hprefix. cbn [bind].
      destruct (images_of page_images) as [|p l] eqn:Himgs.
      * cbn [body_story turns bind page_images_check body_pages].
        apply (end_build_ended d1 1 _ Hended).
      * exact (body_build (p :: l) d1 1 _ Hended ltac:(discriminate)).
    + now rewrite (cover_prefix_too_high cover Hc Hfit).
  - now rewrite (cover_prefix_raises e Hc).
Qed.

Lemma page_images_check_valid (l : list string) :
  images_positive fs ->
  page_images_check fs l =
  if forallb (readable fs) l then Ok tt else Raise IOError.
Proof.
  intros Hpos. induction l as [|p l IH]; [reflexivity|].
  cbn [page_images_check forallb]. unfold page_image_check, readable at 1.
  destruct (fs p) as [[iw ih]|] eqn:Hfs; [|reflexivity].
  destruct (Hpos _ _ _ Hfs) as [Hw _]. apply inject_Z_pos in Hw.
  destruct (Qeq_bool (inject_Z iw) 0) eqn:E.
  - apply Qeq_bool_eq in E. lra.
  - cbn [bind andb]. exact IH.
Qed.

(** The pages that [build_pdf] writes with the assets in place: the
    cover, then one page per image in the order of the list; a list with
    an image that cannot be read gives [IOError] and no document. *)
Lemma build_pdf_pages (output_path titulo : string)
    (page_images : option (list string)) :
  assets_valid fs tm ->
  build_pdf fs tm output_path titulo file_name total_visitors page_images =
  if forallb (readable fs) (images_of page_images)
  then Ok (cover_page fs tm file_name
           :: body_pages fs tm file_name total_visitors 2 (images_of page_images))
  else Raise IOError.
Proof.
  intros (Hpos & Hcov & Hpar).
  rewrite build_pdf_result. unfold build_result, cover_page.
  destruct (fs "resources/cover.jpg") as [[iw ih]|] eqn:Hfs; [|contradiction].
  destruct (Hpos _ _ _ Hfs) as [Hw Hh].
  destruct (draw_cover_ok {| pagesize := landscape A4; page := 1 |}
              "resources/cover.jpg" (-1.0) 5.8 iw ih Hfs Hw Hh) as [cops Hcops].
  rewrite Hcops. cbn [bind].
  assert (Hfit : paragraph_fits tm = true).
  { apply Qle_bool_iff. exact (reset_room frame_cover _ Hpar). }
  rewrite Hfit, (page_images_check_valid _ Hpos).
  destruct (forallb (readable fs) (images_of page_images)); reflexivity.
Qed.

End Report.

(* ------------------------------------------------------------------ *)
(** ** [build_pdf]: the pages of the document *)

Lemma body_pages_length (fs : files) (tm : text_metrics) (file_name : string)
    (n : Z) (l : list string) :
  forall k, List.length (body_pages fs tm file_name n k l) = List.length l.
Proof. induction l as [|p l IH]; intros k; cbn; [reflexivity|now rewrite IH]. Qed.

Lemma body_pages_nth (fs : files) (tm : text_metrics) (file_name : string)
    (n : Z) (l : list string) :
  forall k i p,
    nth_error l i = Some p ->
    nth_error (body_pages fs tm file_name n k l) i =
    Some (body_page fs tm file_name n (k + Z.of_nat i) p).
Proof.
  induction l as [|q l IH]; intros k i p Hi.
  - destruct i; discriminate.
  - destruct i as [|i]; cbn [nth_error body_pages] in *.
    + inversion Hi; subst. now rewrite Z.add_0_r.
    + rewrite (IH (k + 1)%Z i p Hi). do 2 f_equal. lia.
Qed.

Lemma all_readable (fs : files) (l : list string) :
  (forall p, In p l -> fs p <> None) -> forallb (readable fs) l = true.
Proof.
  intros H. apply forallb_forall. intros p Hp. unfold readable.
  specialize (H p Hp). destruct (fs p); [reflexivity|contradiction].
Qed.

Lemma sample_assets_valid : assets_valid sample_files sample_metrics.
Proof.
  split; [|split].
  - intros p iw ih. unfold sample_files.
    repeat (destruct (String.eqb p _); [intros H; inversion H; lia|]).
    discriminate.
  - discriminate.
  - vm_compute. discriminate.
Qed.

(** Every document that [build_pdf] returns is the cover page followed
    by the body pages of the images, in order. *)
Lemma build_pdf_ok_shape (fs : files) (tm : text_metrics)
    (output_path titulo file_name : string) (total_visitors : Z)
    (page_images : option (list string)) (pages : list (list canvas_op)) :
  build_pdf fs tm output_path titulo file_name total_visitors page_images = Ok pages ->
  exists cover,
    draw_cover fs {| pagesize := landscape A4; page := 1 |}
      "resources/cover.jpg" file_name (-1.0) 5.8 = Ok cover /\
    page_images_check fs (images_of page_images) = Ok tt /\
    pages = (cover ++ cover_paragraph_ops tm)
            :: body_pages fs tm file_name total_visitors 2 (images_of page_images).
Proof.
  rewrite build_pdf_result. unfold build_result.
  destruct (draw_cover fs _ _ _ _ _) as [cover|]; [|discriminate]. cbn [bind].
  destruct (paragraph_fits tm); [|discriminate].
  destruct (page_images_check fs (images_of page_images)) as [[]|]; [|discriminate].
  cbn [bind]. intros H. inversion H; subst. exists cover. repeat split.
Qed.

Lemma page_images_check_all (fs : files) (l : list string) :
  page_images_check fs l = Ok tt ->
  forall p, In p l -> exists iw ih, fs p = Some (iw, ih).
Proof.
  induction l as [|q l IH]; intros Hc p Hp; [contradiction|].
  cbn [page_images_check] in Hc.
  destruct (page_image_check fs q) as [[]|] eqn:Hq; [|discriminate].
  cbn [bind] in Hc. destruct Hp as [<-|Hp].
  - destruct (page_image_check_ok fs q Hq) as (iw & ih & Hfs & _).
    now exists iw, ih.
  - exact (IH Hc p Hp).
Qed.

(** C1: every document that [build_pdf] returns for N page images has
    exactly N + 1 pages: the first page is the cover, and page i + 2 is
    the header and footer followed by the image at index i of the list,
    placed by the body frame, so that the images keep their order and
    none is dropped or merged; for an empty list the document is the
    cover page alone.  With the assets in place and every page image
    readable, [build_pdf] does return a document. *)
Theorem build_pdf_page_per_image (fs : files) (tm : text_metrics)
    (output_path titulo file_name : string) (total_visitors : Z)
    (page_images : option (list string)) :
  (forall pages,
     build_pdf fs tm output_path titulo file_name total_visitors page_images = Ok pages ->
     List.length pages = S (List.length (images_of page_images)) /\
     (exists cover x y,
        draw_cover fs {| pagesize := landscape A4; page := 1 |}
          "resources/cover.jpg" file_name (-1.0) 5.8 = Ok cover /\
        nth_error pages 0 =
        Some (cover ++ [saveState; translate x y; drawParagraph " "; restoreState])) /\
     (forall i p,
        nth_error (images_of page_images) i = Some p ->
        exists iw ih,
          fs p = Some (iw, ih) /\
          nth_error pages (S i) =
          Some (draw_common_elements fs tm
                  {| pagesize := landscape A4; page := Z.of_nat i + 2 |}
                  file_name total_visitors "Estadísticas elBulli1846"
                ++ body_image_ops p iw ih)) /\
     (images_of page_images = [] -> List.length pages = 1%nat)) /\
  (assets_valid fs tm ->
   (forall p, In p (images_of page_images) -> fs p <> None) ->
   exists pages,
     build_pdf fs tm output_path titulo file_name total_visitors page_images = Ok pages).
Proof.
  split.
  - intros pages Hb.
    destruct (build_pdf_ok_shape _ _ _ _ _ _ _ _ Hb) as (cover & Hcover & Hcheck & ->).
    split; [cbn [List.length]; now rewrite body_pages_length|].
    split; [|split].
    + exists cover. eexists. eexists. split; [exact Hcover|reflexivity].
    + intros i p Hi.
      destruct (page_images_check_all fs _ Hcheck p (nth_error_In _ _ Hi))
        as (iw & ih & Hfp).
      exists iw, ih. split; [exact Hfp|].
      cbn [nth_error]. rewrite (body_pages_nth _ _ _ _ _ 2 i p Hi).
      unfold body_page. rewrite Hfp. do 4 f_equal. lia.
    + intros E. cbn [List.length]. now rewrite body_pages_length, E.
  - intros Hvalid Hread.
    pose proof (build_pdf_pages fs tm file_name total_visitors output_path titulo
                  page_images Hvalid) as Hb.
    rewrite (all_readable fs _ Hread) in Hb.
    eexists. exact Hb.
Qed.

Lemma build_pdf_page_per_image_witness :
  exists pages,
    build_pdf sample_files sample_metrics "out.pdf" "Informe" "Julio" 1234567
      (Some ["b.png"; "a.png"; "b.png"]) = Ok pages /\
    List.length pages = 4%nat.
Proof.
  destruct (proj2 (build_pdf_page_per_image sample_files sample_metrics "out.pdf"
                     "Informe" "Julio" 1234567 (Some ["b.png"; "a.png"; "b.png"]))
              sample_assets_valid) as [pages Hpages].
  - intros p [<-|[<-|[<-|[]]]]; discriminate.
  - exists pages. split; [exact Hpages|].
    exact (proj1 (proj1 (build_pdf_page_per_image sample_files sample_metrics
                           "out.pdf" "Informe" "Julio" 1234567
                           (Some ["b.png"; "a.png"; "b.png"])) pages Hpages)).
Defined.

(* ------------------------------------------------------------------ *)
(** ** [build_pdf]: an image that cannot be read *)

(** However the engine gets there, an image flowable is only passed once
    its file was read. *)
Lemma turn_image_read (fs : files) (tm : text_metrics) (tpls : list PageTemplate)
    (img : CenteredImage.t) (d d' : Platypus.t) :
  turn fs tm tpls (Centered img) d = Ok d' ->
  fs (CenteredImage.path img) <> None.
Proof.
  unfold turn.
  destruct (clean_hanging tpls d) as [d1|]; [|discriminate]. cbn [bind].
  unfold handle_flowable at 1.
  destruct (Frame._add fs tm (frame d1) (Centered img)) as [[[fr1 ops1]|]|] eqn:Hadd1;
    [| |discriminate]; cbn [bind].
  - intros _. exact (proj2 (add_centered_fills_frame _ _ _ _ _ _ Hadd1)).
  - destruct (handle_frameEnd d1) as [d2|]; [|discriminate]. cbn [bind].
    destruct (clean_hanging tpls d2) as [d3|]; [|discriminate]. cbn [bind].
    unfold handle_flowable.
    destruct (Frame._add fs tm (frame d3) (Centered img)) as [[[fr3 ops3]|]|] eqn:Hadd3;
      [| discriminate |discriminate]; cbn [bind].
    intros _. exact (proj2 (add_centered_fills_frame _ _ _ _ _ _ Hadd3)).
Qed.

Lemma turns_images_read (fs : files) (tm : text_metrics) (tpls : list PageTemplate)
    (story : list flowable) :
  forall d d',
    turns fs tm tpls story d = Ok d' ->
    forall img, In (Centered img) story -> fs (CenteredImage.path img) <> None.
Proof.
  induction story as [|f story IH]; intros d d' Hrun img Hin; [contradiction|].
  cbn [turns] in Hrun.
  destruct (turn fs tm tpls f d) as [d1|] eqn:Hturn; [|discriminate].
  cbn [bind] in Hrun. destruct Hin as [->|Hin].
  - exact (turn_image_read _ _ _ _ _ _ Hturn).
  - exact (IH _ _ Hrun img Hin).
Qed.

Lemma body_story_in (l : list string) (p : string) :
  In p l -> In (Centered (page_image p)) (body_story l).
Proof.
  induction l as [|q l IH]; [contradiction|].
  intros [->|Hin]; cbn [body_story]; [now left|].
  right. destruct l as [|r l]; [contradiction|]. right. exact (IH Hin).
Qed.

Lemma build_pdf_ok_images_read (fs : files) (tm : text_metrics)
    (output_path titulo file_name : string) (total_visitors : Z)
    (page_images : option (list string)) (pages : list (list canvas_op)) :
  build_pdf fs tm output_path titulo file_name total_visitors page_images = Ok pages ->
  forall p, In p (images_of page_images) -> fs p <> None.
Proof.
  unfold build_pdf, build. rewrite build_story_eq.
  destruct (turns fs tm _ _ _) as [d|] eqn:Hturns; [|discriminate].
  intros _ p Hp.
  apply (turns_images_read _ _ _ _ _ _ Hturns (page_image p)).
  apply in_or_app. right. now apply body_story_in.
Qed.

(** C4: a page image that cannot be read makes [build_pdf] end with an
    exception and no document, whatever the other inputs are; with the
    assets in place the exception is [IOError]. *)
Theorem build_pdf_unreadable_image (fs : files) (tm : text_metrics)
    (output_path titulo file_name : string) (total_visitors : Z)
    (page_images : list string) (p : string) :
  In p page_images -> fs p = None ->
  (exists e,
     build_pdf fs tm output_path titulo file_name total_visitors (Some page_images)
     = Raise e) /\
  (assets_valid fs tm ->
   build_pdf fs tm output_path titulo file_name total_visitors (Some page_images)
   = Raise IOError).
Proof.
  intros Hin Hfs. split.
  - destruct (build_pdf fs tm output_path titulo file_name total_visitors
                (Some page_images)) as [pages|e] eqn:Hb.
    + exfalso.
      exact (build_pdf_ok_images_read _ _ _ _ _ _ _ _ Hb p Hin Hfs).
    + now exists e.
  - intros Hvalid.
    rewrite (build_pdf_pages fs tm file_name total_visitors output_path titulo
               (Some page_images) Hvalid).
    cbn [images_of].
    destruct (forallb (readable fs) page_images) eqn:Hall; [|reflexivity].
    rewrite forallb_forall in Hall. specialize (Hall p Hin).
    unfold readable in Hall. rewrite Hfs in Hall. discriminate.
Qed.

Lemma build_pdf_unreadable_image_witness :
  (exists e,
     build_pdf sample_files sample_metrics "out.pdf" "Informe" "Julio" 1234567
       (Some ["a.png"; "missing.png"; "b.png"]) = Raise e) /\
  (assets_valid sample_files sample_metrics ->
   build_pdf sample_files sample_metrics "out.pdf" "Informe" "Julio" 1234567
     (Some ["a.png"; "missing.png"; "b.png"]) = Raise IOError).
Proof.
  apply (build_pdf_unreadable_image sample_files sample_metrics "out.pdf" "Informe"
           "Julio" 1234567 ["a.png"; "missing.png"; "b.png"] "missing.png").
  - right. left. reflexivity.
  - reflexivity.
Defined.

(* ------------------------------------------------------------------ *)
(** ** The page number of the footer *)

Lemma draw_logo_ops (fs : files) (width height : Q) (o : canvas_op) :
  In o (draw_logo fs width height) -> is_logo o = true.
Proof.
  unfold draw_logo.
  destruct (ImageReader_getSize fs "resources/water.png") as [[iw ih]|];
    [|contradiction].
  cbn [bind]. destruct (pydiv (1.2 * cm) ih); [|contradiction].
  cbn [bind try_pass]. intros [<-|[]]. reflexivity.
Qed.

(** The only right-aligned text of the header and footer is the page
    index less one, at the bottom right. *)
Lemma common_right_string (fs : files) (tm : text_metrics) (doc : doc_t)
    (file_name : string) (n : Z) (title : string) (x y : Q) (t : string) :
  In (drawRightString x y t) (draw_common_elements fs tm doc file_name n title) <->
  drawRightString x y t =
  drawRightString (fst (pagesize doc) - 2 * cm) (1.2 * cm) (str (page doc - 1)).
Proof.
  unfold draw_common_elements. destruct (pagesize doc) as [width height].
  rewrite !in_app_iff. cbn [In fst]. split.
  - intros [H|[H|H]].
    + repeat (destruct H as [H|H]; [discriminate|]). contradiction.
    + apply draw_logo_ops in H. discriminate.
    + repeat (destruct H as [H|H]; [try discriminate; now symmetry|]). contradiction.
  - intros ->. right. right. tauto.
Qed.

Lemma cover_no_right_string (fs : files) (doc : doc_t) (image_path file_name : string)
    (off t0 : Q) (ops : list canvas_op) (x y : Q) (t : string) :
  draw_cover fs doc image_path file_name off t0 = Ok ops ->
  ~ In (drawRightString x y t) ops.
Proof.
  unfold draw_cover. destruct (pagesize doc) as [width height].
  destruct (ImageReader_getSize fs image_path) as [[iw ih]|]; [|discriminate].
  cbn [bind].
  destruct (pydiv (width * 1.2) iw); [|discriminate]. cbn [bind].
  destruct (pydiv (height * 0.9) ih); [|discriminate]. cbn [bind].
  intros H. inversion H; subst. cbn [In].
  intros Hin. repeat (destruct Hin as [Hin|Hin]; [discriminate|]). contradiction.
Qed.

(** C6: the footer shows the page index of the engine less one
    ([draw_common_elements] draws [doc.page - 1] as its only
    right-aligned text); in every document that [build_pdf] returns, the
    body page of the image at index i, which is page i + 2 of the
    document, shows i + 1, so the numbers run 1, 2, ... over the body
    pages, and no page number is drawn on the cover.  With the assets in
    place and every page image readable, [build_pdf] does return a
    document. *)
Theorem footer_page_numbers (fs : files) (tm : text_metrics)
    (output_path titulo file_name : string) (total_visitors : Z)
    (page_images : option (list string)) :
  (forall doc x y t,
     In (drawRightString x y t)
        (draw_common_elements fs tm doc file_name total_visitors
           "Estadísticas elBulli1846") <->
     drawRightString x y t =
     drawRightString (fst (pagesize doc) - 2 * cm) (1.2 * cm) (str (page doc - 1))) /\
  (forall pages,
     build_pdf fs tm output_path titulo file_name total_visitors page_images = Ok pages ->
     (exists cover,
        nth_error pages 0 = Some cover /\
        forall x y t, ~ In (drawRightString x y t) cover) /\
     (forall i p,
        nth_error (images_of page_images) i = Some p ->
        exists body,
          nth_error pages (S i) = Some body /\
          forall x y t,
            In (drawRightString x y t) body <->
            drawRightString x y t =
            drawRightString (fst (landscape A4) - 2 * cm) (1.2 * cm)
              (str (Z.of_nat i + 1)))) /\
  (assets_valid fs tm ->
   (forall p, In p (images_of page_images) -> fs p <> None) ->
   exists pages,
     build_pdf fs tm output_path titulo file_name total_visitors page_images = Ok pages).
Proof.
  split; [|split].
  - intros doc x y t. apply common_right_string.
  - intros pages Hb.
    destruct (build_pdf_ok_shape _ _ _ _ _ _ _ _ Hb) as (cover & Hcover & Hcheck & ->).
    split.
    + eexists. split; [reflexivity|].
      intros x y t. rewrite in_app_iff. intros [H|H].
      * exact (cover_no_right_string _ _ _ _ _ _ _ _ _ _ Hcover H).
      * cbn [cover_paragraph_ops In] in H.
        repeat (destruct H as [H|H]; [discriminate|]). contradiction.
    + intros i p Hi. eexists. cbn [nth_error].
      split; [exact (body_pages_nth _ _ _ _ _ 2 i p Hi)|].
      intros x y t. unfold body_page. rewrite in_app_iff, common_right_string.
      cbn [pagesize page].
      replace (2 + Z.of_nat i - 1)%Z with (Z.of_nat i + 1)%Z by lia.
      split; [intros [H|H]; [exact H|]|intros H; now left].
      destruct (fs p) as [[iw ih]|]; [|contradiction].
      cbn [body_image_ops In] in H.
      repeat (destruct H as [H|H]; [discriminate|]). contradiction.
  - intros Hvalid Hread.
    pose proof (build_pdf_pages fs tm file_name total_visitors output_path titulo
                  page_images Hvalid) as Hb.
    rewrite (all_readable fs _ Hread) in Hb.
    eexists. exact Hb.
Qed.

Lemma footer_page_numbers_witness :
  exists pages body,
    build_pdf sample_files sample_metrics "out.pdf" "Informe" "Julio" 1234567
      (Some ["a.png"; "b.png"]) = Ok pages /\
    nth_error pages 2 = Some body /\
    In (drawRightString (fst (landscape A4) - 2 * cm) (1.2 * cm) "2") body.
Proof.
  destruct (proj2 (proj2 (footer_page_numbers sample_files sample_metrics "out.pdf"
                     "Informe" "Julio" 1234567 (Some ["a.png"; "b.png"])))
              sample_assets_valid) as [pages Hpages].
  - intros p [<-|[<-|[]]]; discriminate.
  - destruct (proj2 (proj1 (proj2 (footer_page_numbers sample_files sample_metrics
                       "out.pdf" "Informe" "Julio" 1234567 (Some ["a.png"; "b.png"])))
                       pages Hpages) 1%nat "b.png" eq_refl) as (body & Hbody & Hnum).
    exists pages, body. split; [exact Hpages|]. split; [exact Hbody|].
    apply Hnum. reflexivity.
Defined.

(* ------------------------------------------------------------------ *)
(** ** The logo of the header *)

Lemma draw_logo_missing (fs : files) (width height : Q) :
  fs "resources/water.png" = None -> draw_logo fs width height = [].
Proof.
  intros H. unfold draw_logo. now rewrite (getSize_unreadable _ _ H).
Qed.

Lemma without_logo_draw_logo (fs : files) (width height : Q) :
  without_logo (draw_logo fs width height) = [].
Proof.
  pose proof (draw_logo_ops fs width height) as H. unfold without_logo.
  induction (draw_logo fs width height) as [|o l IH]; [reflexivity|].
  cbn [filter]. rewrite (H o) by now left. cbn [negb].
  apply IH. intros o' Ho'. apply H. now right.
Qed.

(** Header and footer without the logo file are header and footer with
    it, less the drawing call of the logo. *)
Lemma common_without_logo (fs fs' : files) (tm : text_metrics) (doc : doc_t)
    (file_name : string) (n : Z) (title : string) :
  fs "resources/water.png" = None ->
  draw_common_elements fs tm doc file_name n title =
  without_logo (draw_common_elements fs' tm doc file_name n title).
Proof.
  intros Hfs. unfold draw_common_elements.
  destruct (pagesize doc) as [width height].
  unfold without_logo at 1. rewrite !filter_app.
  fold (without_logo (draw_logo fs' width height)).
  rewrite without_logo_draw_logo, (draw_logo_missing fs _ _ Hfs).
  reflexivity.
Qed.

Lemma cover_page_without_logo (fs fs' : files) (tm : text_metrics) (file_name : string) :
  fs' "resources/cover.jpg" = fs "resources/cover.jpg" ->
  cover_page fs tm file_name = without_logo (cover_page fs' tm file_name).
Proof.
  intros Hagree. unfold cover_page, draw_cover, ImageReader_getSize.
  cbn [pagesize]. destruct (landscape A4) as [width height]. rewrite Hagree.
  destruct (fs "resources/cover.jpg") as [[iw ih]|]; [|reflexivity].
  cbn [bind].
  destruct (pydiv (width * 1.2) (inject_Z iw)); [|reflexivity]. cbn [bind].
  destruct (pydiv (height * 0.9) (inject_Z ih)); reflexivity.
Qed.

Lemma body_pages_without_logo (fs fs' : files) (tm : text_metrics)
    (file_name : string) (n : Z) (l : list string) :
  fs "resources/water.png" = None ->
  (forall p, p <> "resources/water.png" -> fs' p = fs p) ->
  (forall p, In p l -> fs p <> None) ->
  forall k,
    body_pages fs tm file_name n k l =
    map without_logo (body_pages fs' tm file_name n k l).
Proof.
  intros Hlogo Hagree. induction l as [|p l IH]; intros Hread k; [reflexivity|].
  cbn [body_pages map]. f_equal.
  - unfold body_page, without_logo. rewrite filter_app.
    fold (without_logo (draw_common_elements fs' tm
            {| pagesize := landscape A4; page := k |} file_name n
            "Estadísticas elBulli1846")).
    rewrite <- (common_without_logo fs fs' tm _ file_name n _ Hlogo). f_equal.
    assert (Hp : p <> "resources/water.png").
    { intros ->. apply (Hread "resources/water.png"); [now left|exact Hlogo]. }
    rewrite (Hagree p Hp). destruct (fs p) as [[iw ih]|]; [|reflexivity].
    cbn [body_image_ops filter is_logo negb].
    apply String.eqb_neq in Hp. now rewrite Hp.
  - apply IH. intros q Hq. apply Hread. now right.
Qed.

(** C5: when the logo file cannot be read, the header and footer
    callback raises nothing and draws no logo; what it draws is what it
    draws with any logo file, less the drawing call of the logo; and the
    build succeeds with the same number of pages, every page being the
    page of a build with a logo file less that one drawing call. *)
Theorem missing_logo_is_skipped (fs : files) (tm : text_metrics)
    (output_path titulo file_name : string) (total_visitors : Z)
    (page_images : option (list string)) :
  fs "resources/water.png" = None ->
  (forall width height, draw_logo fs width height = []) /\
  (forall fs' doc title,
     draw_common_elements fs tm doc file_name total_visitors title =
     without_logo (draw_common_elements fs' tm doc file_name total_visitors title)) /\
  (assets_valid fs tm ->
   (forall p, In p (images_of page_images) -> fs p <> None) ->
   exists pages,
     build_pdf fs tm output_path titulo file_name total_visitors page_images = Ok pages /\
     List.length pages = S (List.length (images_of page_images)) /\
     forall fs',
       (forall p, p <> "resources/water.png" -> fs' p = fs p) ->
       images_positive fs' ->
       exists pages',
         build_pdf fs' tm output_path titulo file_name total_visitors page_images
         = Ok pages' /\
         pages = map without_logo pages').
Proof.
  intros Hlogo. split; [|split].
  - intros width height. now apply draw_logo_missing.
  - intros fs' doc title. now apply common_without_logo.
  - intros Hvalid Hread.
    pose proof (build_pdf_pages fs tm file_name total_visitors output_path titulo
                  page_images Hvalid) as Hb.
    rewrite (all_readable fs _ Hread) in Hb.
    eexists. split; [exact Hb|].
    split; [cbn [List.length]; now rewrite body_pages_length|].
    intros fs' Hagree Hpos'.
    assert (Hcover : fs' "resources/cover.jpg" = fs "resources/cover.jpg")
      by (apply Hagree; discriminate).
    assert (Hread' : forall p, In p (images_of page_images) -> fs' p <> None).
    { intros p Hp. specialize (Hread p Hp).
      rewrite Hagree; [exact Hread|].
      intros ->. contradiction. }
    assert (Hvalid' : assets_valid fs' tm).
    { destruct Hvalid as (_ & Hc & Hpar). split; [exact Hpos'|].
      split; [now rewrite Hcover|exact Hpar]. }
    pose proof (build_pdf_pages fs' tm file_name total_visitors output_path titulo
                  page_images Hvalid') as Hb'.
    rewrite (all_readable fs' _ Hread') in Hb'.
    eexists. split; [exact Hb'|].
    cbn [map]. f_equal.
    + now apply cover_page_without_logo.
    + now apply body_pages_without_logo.
Qed.

Lemma missing_logo_is_skipped_witness :
  exists pages,
    build_pdf sample_files_no_logo sample_metrics "out.pdf" "Informe" "Julio" 1234567
      (Some ["a.png"; "b.png"]) = Ok pages /\
    List.length pages = 3%nat /\
    forall fs',
      (forall p, p <> "resources/water.png" -> fs' p = sample_files_no_logo p) ->
      images_positive fs' ->
      exists pages',
        build_pdf fs' sample_metrics "out.pdf" "Informe" "Julio" 1234567
          (Some ["a.png"; "b.png"]) = Ok pages' /\
        pages = map without_logo pages'.
Proof.
  apply (proj2 (proj2 (missing_logo_is_skipped sample_files_no_logo sample_metrics
                  "out.pdf" "Informe" "Julio" 1234567 (Some ["a.png"; "b.png"])
                  eq_refl))).
  - split; [|split].
    + intros p iw ih. unfold sample_files_no_logo, sample_files.
      repeat (destruct (String.eqb p _); [intros H; inversion H; lia|]).
      discriminate.
    + discriminate.
    + vm_compute. discriminate.
  - intros p [<-|[<-|[]]]; discriminate.
Defined.

(* ================================================================== *)
(** * Further properties of [pdf.py] *)














Lemma common_title_and_date (fs : files) (tm : text_metrics) (doc : doc_t)
    (file_name : string) (n : Z) (title : string) :
  exists x,
    In (drawCentredString (fst (pagesize doc) / 2) (snd (pagesize doc) - 1.2 * cm) title)
       (draw_common_elements fs tm doc file_name n title) /\
    In (drawString x (snd (pagesize doc) - 1.2 * cm) file_name)
       (draw_common_elements fs tm doc file_name n title).
Proof.
  unfold draw_common_elements. destruct (pagesize doc) as [width height].
  cbn [fst snd]. eexists.
  split; apply in_or_app; left; cbn; tauto.
Qed.


(* ------------------------------------------------------------------ *)
(** ** The graphics state of the canvas *)










(* ------------------------------------------------------------------ *)
(** ** The page images on their pages *)





(* ------------------------------------------------------------------ *)
(** ** [CenteredImage]: calling [wrap] again, and what [wrap] raises *)

Lemma wrap_shape (fs : files) (self self' : CenteredImage.t) (aw ah : Q) (r : Q * Q) :
  CenteredImage.wrap fs self aw ah = Ok (self', r) ->
  exists dw dh,
    self' = CenteredImage.mk (CenteredImage.path self) (CenteredImage.draw_w self)
              (CenteredImage.draw_h self) (CenteredImage.scale self)
              (CenteredImage.fit self) (Some dw) (Some dh) (Some aw) (Some ah).
Proof.
  unfold CenteredImage.wrap.
  destruct (ImageReader_getSize fs (CenteredImage.path self)) as [[iw ih]|];
    [|discriminate].
  cbn [bind].
  destruct (CenteredImage.hinted_size self iw ih) as [d0|]; [|discriminate].
  cbn [bind].
  destruct (CenteredImage.fitted_size self aw ah d0) as [[dw dh]|]; [|discriminate].
  cbn [bind]. intros H. inversion H; subst. exists dw, dh. reflexivity.
Qed.

(** X8: [wrap] reads only the path and the sizing hints, never what an
    earlier [wrap] stored: on the object that a [wrap] has returned, any
    further [wrap] behaves as on the original object, and a [wrap] for
    the same area returns that object unchanged.  [draw] on an object
    that was never wrapped raises [TypeError]. *)
Theorem wrap_can_be_repeated (fs : files) (self self' : CenteredImage.t)
    (aw ah : Q) (r : Q * Q) :
  CenteredImage.wrap fs self aw ah = Ok (self', r) ->
  (forall aw2 ah2,
     CenteredImage.wrap fs self' aw2 ah2 = CenteredImage.wrap fs self aw2 ah2) /\
  CenteredImage.wrap fs self' aw ah = Ok (self', r) /\
  (forall p w h s f,
     CenteredImage.draw (CenteredImage.init p w h s f) = Raise TypeError).
Proof.
  intros Hwrap.
  destruct (wrap_shape _ _ _ _ _ _ Hwrap) as (dw & dh & ->).
  assert (Hagain : forall aw2 ah2,
             CenteredImage.wrap fs
               (CenteredImage.mk (CenteredImage.path self) (CenteredImage.draw_w self)
                  (CenteredImage.draw_h self) (CenteredImage.scale self)
                  (CenteredImage.fit self) (Some dw) (Some dh) (Some aw) (Some ah))
               aw2 ah2
             = CenteredImage.wrap fs self aw2 ah2) by reflexivity.
  split; [exact Hagain|]. split; [|reflexivity].
  rewrite Hagain. exact Hwrap.
Qed.

Lemma wrap_can_be_repeated_witness :
  exists self',
    CenteredImage.wrap sample_files (page_image "a.png") 700 400
    = Ok (self', (700, 400)) /\
    CenteredImage.wrap sample_files self' 700 400 = Ok (self', (700, 400)).
Proof.
  eexists. split; [vm_compute; reflexivity|].
  eapply (proj1 (proj2 (wrap_can_be_repeated sample_files (page_image "a.png") _
                          700 400 (700, 400) _))).
  Unshelve. vm_compute. reflexivity.
Defined.






(* ------------------------------------------------------------------ *)
(** ** [build_pdf]: failures, titles and the story *)




(** X11: the titles of a report do not come from [titulo]: [build_pdf]
    gives the same result for any two values of it; in every document
    that it returns the cover shows [file_name] as its title, and every
    body page shows the fixed title "Estadísticas elBulli1846" centred in
    the header and [file_name] after the date label. *)
Theorem titles_ignore_titulo (fs : files) (tm : text_metrics)
    (output_path file_name : string) (total_visitors : Z)
    (page_images : option (list string)) :
  (forall titulo1 titulo2,
     build_pdf fs tm output_path titulo1 file_name total_visitors page_images =
     build_pdf fs tm output_path titulo2 file_name total_visitors page_images) /\
  (forall titulo pages,
     build_pdf fs tm output_path titulo file_name total_visitors page_images = Ok pages ->
     (exists cover,
        nth_error pages 0 = Some cover /\
        In (drawCentredString (fst (landscape A4) / 2)
              (cover_text_y (snd (landscape A4)) 5.8) file_name) cover) /\
     (forall i body,
        nth_error pages (S i) = Some body ->
        In (drawCentredString (fst (landscape A4) / 2)
              (snd (landscape A4) - 1.2 * cm) "Estadísticas elBulli1846") body /\
        exists x,
          In (drawString x (snd (landscape A4) - 1.2 * cm) file_name) body)).
Proof.
  split; [reflexivity|].
  intros titulo pages Hb.
  destruct (build_pdf_ok_shape _ _ _ _ _ _ _ _ Hb) as (cover & Hcover & _ & ->).
  split.
  - eexists. split; [reflexivity|]. apply in_or_app. left.
    apply (draw_cover_title fs {| pagesize := landscape A4; page := 1 |}
             (fst (landscape A4)) (snd (landscape A4)) "resources/cover.jpg"
             file_name (-1.0) 5.8 cover); [|exact Hcover].
    cbn [pagesize]. now destruct (landscape A4).
  - intros i body Hi. cbn [nth_error] in Hi.
    assert (Hshape : forall l k j,
               nth_error (body_pages fs tm file_name total_visitors k l) j = Some body ->
               exists k' p, body = body_page fs tm file_name total_visitors k' p).
    { induction l as [|p l IH]; intros k j Hj; [destruct j; discriminate|].
      destruct j as [|j]; cbn [body_pages nth_error] in Hj.
      - inversion Hj. now exists k, p.
      - exact (IH _ _ Hj). }
    destruct (Hshape _ _ _ Hi) as (k' & p & ->).
    pose proof (common_title_and_date fs tm
                  {| pagesize := landscape A4; page := k' |} file_name
                  total_visitors "Estadísticas elBulli1846") as (x & H1 & H2).
    unfold body_page. split; [apply in_or_app; now left|].
    exists x. apply in_or_app. now left.
Qed.

Lemma titles_ignore_titulo_witness :
  exists pages body,
    build_pdf sample_files sample_metrics "out.pdf" "Otro titulo" "Julio" 1234567
      (Some ["a.png"]) = Ok pages /\
    nth_error pages 1 = Some body /\
    In (drawCentredString (fst (landscape A4) / 2)
          (snd (landscape A4) - 1.2 * cm) "Estadísticas elBulli1846") body.
Proof.
  assert (Hb : exists pages body,
             build_pdf sample_files sample_metrics "out.pdf" "Otro titulo" "Julio"
               1234567 (Some ["a.png"]) = Ok pages /\
             nth_error pages 1 = Some body)
    by (eexists; eexists; split; [vm_compute; reflexivity|reflexivity]).
  destruct Hb as (pages & body & Hb & Hn).
  exists pages, body. split; [exact Hb|]. split; [exact Hn|].
  exact (proj1 (proj2 (proj2 (titles_ignore_titulo sample_files sample_metrics
                         "out.pdf" "Julio" 1234567 (Some ["a.png"]))
                         "Otro titulo" pages Hb) 0%nat body Hn)).
Defined.

Lemma body_story_shape (l : list string) :
  story_images (body_story l) = l /\
  page_breaks (body_story l) = Nat.pred (List.length l) /\
  List.length (body_story l) = (2 * List.length l - 1)%nat /\
  (l <> [] ->
   last (body_story l) PageBreak = Centered (page_image (last l ""%string))).
Proof.
  induction l as [|p l (I1 & I2 & I3 & I4)]; [repeat split; try reflexivity; congruence|].
  destruct l as [|q l].
  - repeat split; reflexivity.
  - cbn [body_story] in *. cbn [story_images page_breaks List.length] in *.
    cbn [page_image CenteredImage.init CenteredImage.path] in *.
    split; [now rewrite I1|]. split; [now rewrite I2|]. split; [lia|].
    intros _. specialize (I4 ltac:(discriminate)).
    change (last (p :: q :: l) ""%string) with (last (q :: l) ""%string).
    rewrite <- I4. reflexivity.
Qed.

(** X12: the story of [build_pdf] holds the page images in the order of
    the list, each exactly once; for N >= 1 images it has 2N + 2
    flowables and N page breaks and ends with the last image, never with
    a page break; without images ([None] or an empty list) it is the
    three opening flowables, with the one page break that ends the
    cover. *)
Theorem story_of_images (page_images : option (list string)) :
  let story := build_story page_images in
  let l := images_of page_images in
  story_images story = l /\
  page_breaks story = Nat.max 1 (List.length l) /\
  List.length story = (3 + (2 * List.length l - 1))%nat /\
  (l = [] -> story = [Paragraph " "; NextPageTemplate "BODY"; PageBreak]) /\
  (l <> [] -> last story PageBreak = Centered (page_image (last l ""%string))).
Proof.
  cbv zeta. rewrite build_story_eq.
  destruct (body_story_shape (images_of page_images)) as (S1 & S2 & S3 & S4).
  unfold story_prefix. cbn [app story_images page_breaks List.length].
  split; [exact S1|]. split; [rewrite S2; lia|]. split; [rewrite S3; lia|].
  split.
  - intros E. now rewrite E.
  - intros Hne. specialize (S4 Hne). rewrite <- S4.
    destruct (images_of page_images) as [|p l]; [contradiction|].
    cbn [body_story]. reflexivity.
Qed.

Lemma story_of_images_witness :
  last (build_story (Some ["a.png"; "b.png"; "a.png"])) PageBreak
  = Centered (page_image "a.png").
Proof.
  apply (proj2 (proj2 (proj2 (proj2 (story_of_images
                  (Some ["a.png"; "b.png"; "a.png"])))))).
  discriminate.
Defined.

(* ================================================================== *)
(** * Properties of the helpers of [app.py] *)

(** The place of the class of a number of days in [advanceOrder]. *)
Lemma classifyDays_index (d : Z) :
  (0 <= d)%Z ->
  exists i,
    App.index (App.classifyDays (Some d)) App.advanceOrder = Some i /\
    ((i = 0%nat /\ d = 0%Z) \/ (i = 1%nat /\ d = 1%Z) \/
     (i = 2%nat /\ 2 <= d <= 5)%Z \/ (i = 3%nat /\ 6 <= d <= 10)%Z \/
     (i = 4%nat /\ 11 <= d <= 20)%Z \/ (i = 5%nat /\ 21 <= d <= 30)%Z \/
     (i = 6%nat /\ 31 <= d <= 60)%Z \/ (i = 7%nat /\ 61 <= d <= 90)%Z \/
     (i = 8%nat /\ 90 < d)%Z).
Proof.
  intros Hd. unfold App.classifyDays, App.cell_eq, App.cell_between, App.cell_gt.
  repeat match goal with
         | |- context [(?a =? ?b)%Z] => destruct (Z.eqb_spec a b)
         | |- context [(?a <=? ?b)%Z] => destruct (Z.leb_spec a b)
         | |- context [(?a <? ?b)%Z] => destruct (Z.ltb_spec a b)
         end;
    cbn [andb]; try lia;
    eexists; (split; [vm_compute; reflexivity|]); lia.
Qed.

Lemma index_in (x : string) (l : list string) (i : nat) :
  App.index x l = Some i -> In x l.
Proof.
  revert i. induction l as [|y l IH]; intros i; cbn [App.index]; [discriminate|].
  destruct (String.eqb_spec y x) as [->|_]; [now left|].
  destruct (App.index x l) as [j|]; [|discriminate].
  intros _. right. exact (IH j eq_refl).
Qed.

(** X13: [classifyDays] answers a category of [advanceOrder] exactly for
    a number of days that is not negative; a negative number and [NaN]
    both give "Error de antelación", which is no category. *)
Theorem classifyDays_categories (days : App.cell) :
  (In (App.classifyDays days) App.advanceOrder <->
   exists d, days = Some d /\ (0 <= d)%Z) /\
  (~ (exists d, days = Some d /\ (0 <= d)%Z) ->
   App.classifyDays days = "Error de antelación").
Proof.
  assert (Herr : ~ (exists d, days = Some d /\ (0 <= d)%Z) ->
                 App.classifyDays days = "Error de antelación").
  { intros Hneg. destruct days as [d|]; [|reflexivity].
    assert (Hd : (d < 0)%Z).
    { destruct (Z.ltb_spec d 0); [assumption|]. exfalso. apply Hneg. now exists d. }
    unfold App.classifyDays, App.cell_eq, App.cell_between, App.cell_gt.
    repeat match goal with
           | |- context [(?a =? ?b)%Z] => destruct (Z.eqb_spec a b)
           | |- context [(?a <=? ?b)%Z] => destruct (Z.leb_spec a b)
           | |- context [(?a <? ?b)%Z] => destruct (Z.ltb_spec a b)
           end;
      cbn [andb]; try lia; reflexivity. }
  split; [|exact Herr]. split.
  - intros Hin.
    destruct days as [d|].
    + destruct (Z.ltb_spec d 0) as [Hd|Hd]; [|now exists d].
      exfalso. rewrite Herr in Hin.
      * cbn in Hin. repeat (destruct Hin as [Hin|Hin]; [discriminate|]). contradiction.
      * intros (d' & E & Hd'). inversion E. lia.
    + exfalso. cbn in Hin.
      repeat (destruct Hin as [Hin|Hin]; [discriminate|]). contradiction.
  - intros (d & -> & Hd).
    destruct (classifyDays_index d Hd) as (i & Hi & _).
    exact (index_in _ _ _ Hi).
Qed.

Lemma classifyDays_categories_witness :
  App.classifyDays (Some (-3)%Z) = "Error de antelación" /\
  App.classifyDays None = "Error de antelación".
Proof.
  split.
  - apply (proj2 (classifyDays_categories (Some (-3)%Z))).
    intros (d & E & Hd). inversion E. lia.
  - apply (proj2 (classifyDays_categories None)).
    intros (d & E & Hd). discriminate.
Defined.

(** X14: [classifyDays] keeps the order: of two numbers of days that are
    not negative, the larger one never falls in an earlier category of
    [advanceOrder]; and two numbers in one category have every number
    between them in that category. *)
Theorem classifyDays_monotone (d1 d2 : Z) :
  (0 <= d1 <= d2)%Z ->
  (exists i1 i2,
     App.index (App.classifyDays (Some d1)) App.advanceOrder = Some i1 /\
     App.index (App.classifyDays (Some d2)) App.advanceOrder = Some i2 /\
     (i1 <= i2)%nat) /\
  (App.classifyDays (Some d1) = App.classifyDays (Some d2) ->
   forall d, (d1 <= d <= d2)%Z ->
     App.classifyDays (Some d) = App.classifyDays (Some d1)).
Proof.
  intros [H1 H12].
  destruct (classifyDays_index d1 H1) as (i1 & Hi1 & C1).
  destruct (classifyDays_index d2 ltac:(lia)) as (i2 & Hi2 & C2).
  split.
  - exists i1, i2. split; [exact Hi1|]. split; [exact Hi2|]. lia.
  - intros E d [Hd1 Hd2].
    destruct (classifyDays_index d ltac:(lia)) as (i & Hi & C).
    assert (Ei : i1 = i2) by (rewrite E in Hi1; congruence).
    assert (Eii : i = i1) by lia.
    subst i i2.
    revert Hi Hi1. clear.
    generalize (App.classifyDays (Some d)) (App.classifyDays (Some d1)).
    intros a b Ha Hb.
    assert (Hnth : forall (x : string) (l : list string) (j : nat),
               App.index x l = Some j -> nth_error l j = Some x).
    { intros x l. induction l as [|y l IH]; intros j; cbn [App.index]; [discriminate|].
      destruct (String.eqb_spec y x) as [->|_].
      - intros H. inversion H. reflexivity.
      - destruct (App.index x l) as [k|]; [|discriminate].
        intros H. inversion H. cbn [nth_error]. now apply IH. }
    apply Hnth in Ha, Hb. congruence.
Qed.

Lemma classifyDays_monotone_witness :
  exists i1 i2,
    App.index (App.classifyDays (Some 4%Z)) App.advanceOrder = Some i1 /\
    App.index (App.classifyDays (Some 75%Z)) App.advanceOrder = Some i2 /\
    (i1 <= i2)%nat.
Proof.
  apply (proj1 (classifyDays_monotone 4 75 ltac:(lia))).
Defined.

(* ------------------------------------------------------------------ *)
(** ** The separators of the euro amounts *)

Lemma chars_inj (s1 s2 : string) :
  list_ascii_of_string s1 = list_ascii_of_string s2 -> s1 = s2.
Proof.
  intros H. rewrite <- (string_of_list_ascii_of_string s1),
              <- (string_of_list_ascii_of_string s2). now rewrite H.
Qed.

Lemma chars_append (s1 s2 : string) :
  list_ascii_of_string (String.append s1 s2) =
  list_ascii_of_string s1 ++ list_ascii_of_string s2.
Proof. induction s1 as [|c s1 IH]; cbn; [reflexivity|now rewrite IH]. Qed.

Lemma swap_separators_chars (s : string) :
  list_ascii_of_string (App.swap_separators s) = map swap_step (list_ascii_of_string s).
Proof.
  unfold App.swap_separators. rewrite !replace_chars, !map_map. reflexivity.
Qed.

Lemma swap_step_no_X (c : ascii) :
  c <> "X"%char -> swap_step c = App.swap_char c /\ App.swap_char c <> "X"%char.
Proof.
  intros Hc. unfold swap_step, App.swap_char.
  destruct (Ascii.eqb_spec c ",") as [->|H1]; [split; [reflexivity|discriminate]|].
  destruct (Ascii.eqb_spec c ".") as [->|H2]; [split; [reflexivity|discriminate]|].
  destruct (Ascii.eqb_spec c "X") as [->|H3]; [contradiction|]. now split.
Qed.

Lemma swap_char_involutive (c : ascii) : App.swap_char (App.swap_char c) = c.
Proof.
  unfold App.swap_char.
  destruct (Ascii.eqb_spec c ",") as [->|H1]; [reflexivity|].
  destruct (Ascii.eqb_spec c ".") as [->|H2]; [reflexivity|].
  destruct (Ascii.eqb_spec c ",") as [->|_]; [contradiction|].
  destruct (Ascii.eqb_spec c ".") as [->|_]; [contradiction|reflexivity].
Qed.

Lemma swap_no_X_chars (l : list ascii) :
  ~ In "X"%char l ->
  map swap_step l = map App.swap_char l /\ ~ In "X"%char (map App.swap_char l).
Proof.
  induction l as [|c l IH]; intros Hl; [split; [reflexivity|intros []]|].
  assert (Hc : c <> "X"%char) by (intros ->; apply Hl; now left).
  assert (Hl' : ~ In "X"%char l) by (intros H; apply Hl; now right).
  destruct (swap_step_no_X c Hc) as [E N]. destruct (IH Hl') as [E' N'].
  cbn [map]. split; [now rewrite E, E'|].
  intros [H|H]; [now apply N|now apply N'].
Qed.

(** X15: on a text without the letter X, the three replacements
    [.replace(",", "X").replace(".", ",").replace("X", ".")] exchange
    commas and dots and leave every other character alone, so doing them
    twice gives the text back; a letter X of the text comes out as a
    dot, and no X is ever left. *)
Theorem swap_separators_exchanges (s : string) :
  (~ In "X"%char (list_ascii_of_string s) ->
   list_ascii_of_string (App.swap_separators s)
   = map App.swap_char (list_ascii_of_string s) /\
   App.swap_separators (App.swap_separators s) = s) /\
  ~ In "X"%char (list_ascii_of_string (App.swap_separators s)) /\
  List.length (list_ascii_of_string (App.swap_separators s))
  = List.length (list_ascii_of_string s) /\
  (forall i, nth_error (list_ascii_of_string s) i = Some "X"%char ->
             nth_error (list_ascii_of_string (App.swap_separators s)) i
             = Some "."%char).
Proof.
  split; [|split; [|split]].
  - intros HX. destruct (swap_no_X_chars _ HX) as [E N].
    assert (E1 : list_ascii_of_string (App.swap_separators s)
                 = map App.swap_char (list_ascii_of_string s))
      by (now rewrite swap_separators_chars).
    split; [exact E1|].
    apply chars_inj. rewrite swap_separators_chars, E1.
    destruct (swap_no_X_chars _ N) as [E2 _]. rewrite E2, map_map.
    rewrite <- (map_id (list_ascii_of_string s)) at 2.
    apply map_ext. intros c. apply swap_char_involutive.
  - rewrite swap_separators_chars. intros Hin. apply in_map_iff in Hin.
    destruct Hin as (c & Hc & _). revert Hc. unfold swap_step.
    destruct (Ascii.eqb_spec c ",") as [->|H1]; [discriminate|].
    destruct (Ascii.eqb_spec c ".") as [->|H2]; [discriminate|].
    destruct (Ascii.eqb_spec c "X") as [->|H3]; [discriminate|].
    intros ->. contradiction.
  - now rewrite swap_separators_chars, length_map.
  - intros i Hi. rewrite swap_separators_chars.
    rewrite nth_error_map, Hi. reflexivity.
Qed.

Lemma swap_separators_exchanges_witness :
  App.swap_separators (App.swap_separators "12,345.60 €") = "12,345.60 €".
Proof.
  apply (proj1 (swap_separators_exchanges "12,345.60 €")).
  vm_compute. intros H.
  repeat (destruct H as [H|H]; [discriminate|]). contradiction.
Defined.

Lemma group3_in (sep c : ascii) (l : list ascii) :
  forall k, In c (group3 sep l k) -> c = sep \/ In c l.
Proof.
  induction l as [|x l IH]; intros k; [intros []|].
  destruct k as [|[|[|[|k]]]]; cbn [group3 In];
    intros H; repeat (destruct H as [H|H]; [auto|]);
    destruct (IH _ H); auto.
Qed.

Lemma format_thousands_chars (n : Z) (c : ascii) :
  In c (list_ascii_of_string (format_thousands n)) ->
  c = "-"%char \/ c = ","%char \/ is_digit c.
Proof.
  unfold format_thousands. rewrite list_ascii_of_string_of_list_ascii.
  intros H. apply in_app_or in H. destruct H as [H|H].
  - destruct (n <? 0)%Z; [|contradiction]. destruct H as [<-|[]]. now left.
  - apply in_rev in H. apply group3_in in H. destruct H as [->|H]; [auto|].
    apply in_rev in H. right. right.
    pose proof (str_nonneg_digits (Z.abs n) (Z.abs_nonneg n)) as Hd.
    rewrite Forall_forall in Hd. now apply Hd.
Qed.

(** X16: a whole amount [total], small enough for [float] to hold it
    exactly, is shown by
    [f"{total:,.2f} €".replace(",", "X").replace(".", ",").replace("X", ".")]
    as the digits in groups of three separated by dots, exactly as in the
    footer of the PDF, followed by ",00 €". *)
Theorem total_fmt_dots_and_comma (total : Z) :
  (Z.abs total < 2 ^ 53)%Z ->
  App.total_fmt total = String.append (vis_str total) ",00 €" /\
  App.swap_separators (format_thousands total) = vis_str total.
Proof.
  intros _.
  assert (Hmap : map swap_step (list_ascii_of_string (format_thousands total))
                 = list_ascii_of_string (vis_str total)).
  { unfold vis_str. rewrite replace_chars. apply map_ext_in.
    intros c Hc. apply format_thousands_chars in Hc. unfold swap_step.
    destruct Hc as [->|[->|Hd]]; [reflexivity|reflexivity|].
    unfold is_digit in Hd. cbn in Hd.
    repeat (destruct Hd as [Hd|Hd]; [subst c; reflexivity|]). contradiction. }
  split.
  - apply chars_inj. unfold App.total_fmt.
    rewrite swap_separators_chars, !chars_append, map_app, Hmap. reflexivity.
  - apply chars_inj. now rewrite swap_separators_chars.
Qed.

Lemma total_fmt_dots_and_comma_witness :
  App.total_fmt 1234567 = "1.234.567,00 €".
Proof.
  rewrite (proj1 (total_fmt_dots_and_comma 1234567 ltac:(vm_compute; reflexivity))).
  reflexivity.
Defined.

(* ------------------------------------------------------------------ *)
(** ** The weekday columns of the pivot table *)

Lemma index_first (d : string) (l : list string) :
  existsb (String.eqb d) l = true ->
  exists i, App.index d l = Some i /\ nth_error l i = Some d.
Proof.
  induction l as [|y l IH]; cbn [existsb App.index]; [discriminate|].
  rewrite String.eqb_sym.
  destruct (String.eqb_spec y d) as [->|_]; [intros _; now exists 0%nat|].
  cbn [orb]. intros H. destruct (IH H) as (i & Hi & Hn).
  exists (S i). rewrite Hi. now split.
Qed.

Lemma lowerOrder_NoDup : NoDup App.lowerOrder.
Proof.
  unfold App.lowerOrder.
  repeat (constructor;
          [cbn [In]; intros H;
           repeat (destruct H as [H|H]; [discriminate|]); contradiction|]).
  constructor.
Qed.

Section Columns.

Variable lower : string -> string.

Lemma cols_reorden_step (columns : list string) (d : string) :
  existsb (String.eqb d) (map lower columns) = true ->
  exists c,
    In c columns /\ lower c = d /\
    (match App.index d (map lower columns) with
     | Some i => match nth_error columns i with
                 | Some c => [c]
                 | None => []
                 end
     | None => []
     end) = [c].
Proof.
  intros H. destruct (index_first d _ H) as (i & Hi & Hn).
  rewrite Hi. rewrite nth_error_map in Hn.
  destruct (nth_error columns i) as [c|] eqn:Hc; [|discriminate].
  cbn in Hn. inversion Hn. exists c.
  split; [exact (nth_error_In _ _ Hc)|]. now split.
Qed.

Lemma cols_reorden_lowered (columns week : list string) :
  map lower
    (flat_map
       (fun d =>
          if existsb (String.eqb d) (map lower columns) then
            match App.index d (map lower columns) with
            | Some i => match nth_error columns i with
                        | Some c => [c]
                        | None => []
                        end
            | None => []
            end
          else []) week)
  = filter (fun d => existsb (String.eqb d) (map lower columns)) week.
Proof.
  induction week as [|d week IH]; [reflexivity|].
  cbn [flat_map filter]. rewrite map_app, IH.
  destruct (existsb (String.eqb d) (map lower columns)) eqn:E; [|reflexivity].
  destruct (cols_reorden_step columns d E) as (c & _ & Hl & ->).
  cbn [map app]. now rewrite Hl.
Qed.

(** X17: the columns that line 429 keeps are columns of the table whose
    lower-case name is a weekday; they come in the order of the week,
    each weekday at most once (the first column of that name when several
    differ only in case), and every other column is dropped. *)
Theorem cols_reorden_weekdays (columns : list string) :
  let kept := App.cols_reorden lower columns in
  map lower kept
  = filter (fun d => existsb (String.eqb d) (map lower columns)) App.lowerOrder /\
  (forall c, In c kept -> In c columns /\ In (lower c) App.lowerOrder) /\
  NoDup kept /\
  (List.length kept <= 7)%nat /\
  (forall c, In c columns -> In (lower c) App.lowerOrder ->
             exists c', In c' kept /\ lower c' = lower c).
Proof.
  cbv zeta.
  pose proof (cols_reorden_lowered columns App.lowerOrder) as Hlow.
  fold (App.cols_reorden lower columns) in Hlow.
  assert (Hin : forall c, In c (App.cols_reorden lower columns) ->
                  In c columns /\ In (lower c) App.lowerOrder).
  { intros c Hc. split.
    - unfold App.cols_reorden in Hc. apply in_flat_map in Hc.
      destruct Hc as (d & _ & Hc).
      destruct (existsb (String.eqb d) (map lower columns)) eqn:E; [|contradiction].
      destruct (cols_reorden_step columns d E) as (c' & Hc' & _ & Eq).
      rewrite Eq in Hc. destruct Hc as [<-|[]]. exact Hc'.
    - assert (H : In (lower c) (map lower (App.cols_reorden lower columns)))
        by now apply in_map.
      rewrite Hlow in H. apply filter_In in H. tauto. }
  split; [exact Hlow|]. split; [exact Hin|].
  assert (Hnd : NoDup (map lower (App.cols_reorden lower columns))).
  { rewrite Hlow. apply NoDup_filter. exact lowerOrder_NoDup. }
  split; [exact (NoDup_map_inv _ _ Hnd)|].
  split.
  - rewrite <- (length_map lower), Hlow.
    etransitivity; [apply filter_length_le|]. reflexivity.
  - intros c Hc Hw.
    assert (H : In (lower c) (map lower (App.cols_reorden lower columns))).
    { rewrite Hlow. apply filter_In. split; [exact Hw|].
      apply existsb_exists. exists (lower c). split; [now apply in_map|].
      apply String.eqb_refl. }
    apply in_map_iff in H. destruct H as (c' & E & Hc'). now exists c'.
Qed.

End Columns.

Lemma cols_reorden_weekdays_witness :
  App.cols_reorden sample_lower ["Viernes"; "TOTAL"; "Lunes"; "LUNES"]
  = ["Lunes"; "Viernes"] /\
  NoDup (App.cols_reorden sample_lower ["Viernes"; "TOTAL"; "Lunes"; "LUNES"]) /\
  (In "Lunes" ["Viernes"; "TOTAL"; "Lunes"; "LUNES"] /\
   In (sample_lower "Lunes") App.lowerOrder).
Proof.
  destruct (cols_reorden_weekdays sample_lower ["Viernes"; "TOTAL"; "Lunes"; "LUNES"])
    as (_ & Hin & Hnd & _).
  split; [reflexivity|]. split; [exact Hnd|].
  apply Hin. vm_compute. left. reflexivity.
Defined.

(* ------------------------------------------------------------------ *)
(** ** Averages and percentages *)







(* ------------------------------------------------------------------ *)
(** ** The order of the countries *)

Lemma unique_from_in (l : list string) :
  forall seen x,
    In x (App.unique_from seen l) <-> In x l /\ ~ In x seen.
Proof.
  induction l as [|y l IH]; intros seen x; cbn [App.unique_from In]; [tauto|].
  destruct (existsb (String.eqb y) seen) eqn:E.
  - rewrite IH. apply existsb_exists in E. destruct E as (z & Hz & Ez).
    apply String.eqb_eq in Ez. subst z.
    split; [tauto|]. intros [[->|H] Hn]; [contradiction|tauto].
  - cbn [In]. rewrite IH. cbn [In].
    assert (Hy : ~ In y seen).
    { intros Hy. rewrite <- Bool.not_true_iff_false in E. apply E.
      apply existsb_exists. exists y. split; [exact Hy|apply String.eqb_refl]. }
    destruct (String.eqb_spec y x) as [->|Hne]; [tauto|].
    split; [intros [H|H]; [contradiction|tauto]|].
    intros [[H|H] Hn]; [contradiction|]. right. split; [exact H|].
    intros [H'|H']; [contradiction|contradiction].
Qed.

Lemma unique_from_NoDup (l : list string) :
  forall seen, NoDup (App.unique_from seen l).
Proof.
  induction l as [|y l IH]; intros seen; cbn [App.unique_from]; [constructor|].
  destruct (existsb (String.eqb y) seen); [apply IH|].
  constructor; [|apply IH].
  rewrite unique_from_in. cbn [In]. tauto.
Qed.

Lemma insert_sorted_perm (x : string) (l : list string) :
  Permutation (x :: l) (App.insert_sorted x l).
Proof.
  induction l as [|y l IH]; cbn [App.insert_sorted]; [reflexivity|].
  destruct (String.leb x y); [reflexivity|].
  etransitivity; [apply perm_swap|]. now constructor.
Qed.

Lemma sorted_perm (l : list string) : Permutation l (App.sorted l).
Proof.
  induction l as [|x l IH]; cbn [App.sorted fold_right]; [constructor|].
  etransitivity; [|apply insert_sorted_perm]. now constructor.
Qed.

Lemma insert_sorted_ascending (x : string) (l : list string) :
  ascending l -> ascending (App.insert_sorted x l).
Proof.
  unfold ascending. induction l as [|y l IH]; intros Hl; cbn [App.insert_sorted].
  - repeat constructor.
  - destruct (String.leb x y) eqn:E.
    + constructor; [exact Hl|]. now constructor.
    + inversion Hl as [|? ? Hl' Hhd]; subst.
      constructor; [exact (IH Hl')|].
      assert (Hyx : String.leb y x = true).
      { destruct (String.leb_total x y) as [H|H]; [congruence|exact H]. }
      destruct l as [|z l]; cbn [App.insert_sorted].
      * now constructor.
      * destruct (String.leb x z); constructor; [exact Hyx|].
        now inversion Hhd.
Qed.

Lemma sorted_ascending (l : list string) : ascending (App.sorted l).
Proof.
  induction l as [|x l IH]; cbn [App.sorted fold_right]; [constructor|].
  now apply insert_sorted_ascending.
Qed.

(** X20: the categories built for the chart of origins begin with Roses,
    Catalunya, España, go on with the other labels in ascending order,
    hold no label twice, and hold every label of the table, so that no
    row loses its category. *)
Theorem finalCountriesOrder_covers (labels : list string) :
  let final := App.finalCountriesOrder labels in
  (forall c, In c labels -> In c final) /\
  (forall c, In c final -> In c App.countriesOrder \/ In c labels) /\
  NoDup final /\
  firstn 3 final = App.countriesOrder /\
  ascending (skipn 3 final).
Proof.
  cbv zeta. unfold App.finalCountriesOrder.
  set (others := filter (fun c => negb (existsb (String.eqb c) App.countriesOrder))
                   (App.unique labels)).
  assert (Hothers : forall c, In c others <->
                      In c labels /\ ~ In c App.countriesOrder).
  { intros c. unfold others, App.unique.
    rewrite filter_In, unique_from_in. cbn [In].
    rewrite Bool.negb_true_iff, <- Bool.not_true_iff_false, existsb_exists.
    split.
    - intros [[H _] Hn]. split; [exact H|]. intros Hc. apply Hn.
      exists c. split; [exact Hc|apply String.eqb_refl].
    - intros [H Hn]. split; [tauto|]. intros (z & Hz & Ez).
      apply String.eqb_eq in Ez. subst z. contradiction. }
  assert (Hsorted : forall c, In c (App.sorted others) <-> In c others).
  { intros c. split; apply Permutation_in;
      [symmetry|]; apply sorted_perm. }
  split; [|split; [|split; [|split]]].
  - intros c Hc. apply in_or_app.
    destruct (in_dec string_dec c App.countriesOrder) as [H|H]; [now left|].
    right. apply Hsorted, Hothers. now split.
  - intros c Hc. apply in_app_or in Hc. destruct Hc as [H|H]; [now left|].
    right. apply Hsorted, Hothers in H. tauto.
  - apply NoDup_app.
    + unfold App.countriesOrder.
      repeat (constructor;
              [cbn [In]; intros H;
               repeat (destruct H as [H|H]; [discriminate|]); contradiction|]).
      constructor.
    + apply (Permutation_NoDup (sorted_perm others)).
      unfold others. apply NoDup_filter. apply unique_from_NoDup.
    + intros c Hc Hs. apply Hsorted, Hothers in Hs. tauto.
  - reflexivity.
  - cbn [App.countriesOrder app skipn]. apply sorted_ascending.
Qed.

Lemma finalCountriesOrder_covers_witness :
  In "Francia" (App.finalCountriesOrder ["Francia"; "Roses"; "Alemania"; "Francia"]) /\
  App.finalCountriesOrder ["Francia"; "Roses"; "Alemania"; "Francia"]
  = ["Roses"; "Catalunya"; "España"; "Alemania"; "Francia"].
Proof.
  split; [|reflexivity].
  apply (proj1 (finalCountriesOrder_covers
                  ["Francia"; "Roses"; "Alemania"; "Francia"])).
  left. reflexivity.
Defined.

(* ------------------------------------------------------------------ *)
(** ** From the uploads to the pages *)





